(** * Calamares partition module: PartitionActions

    A shallow embedding of [src/modules/partition/core/PartitionActions.cpp]
    (namespace [PartitionActions]): the swap-size heuristic [swapSuggestion],
    the erase-disk planner [doAutopartition] and the replace-partition planner
    [doReplacePartition], together with the properties the specification
    states about them.

    Conventions of the embedding.

    - [qint64] and [int] values are integers of [Z]; every arithmetic
      operation of the source is followed by its wrap-around to the width of
      its C++ type ([wrap64], [wrap32]).
    - [qreal] is IEEE binary64, here the kernel's primitive [float]; the
      conversions between [qint64] and [qreal] are written out.
    - The calls on [PartitionCoreModule] are recorded, in order, in the
      module's job queue; a planner is a state transformer on that queue.
    - The process-wide singletons the source reads ([CalamaresUtils::System],
      [PartUtils::isEfiSystem], the job queue's [GlobalStorage]) are the
      fields of one [Environment] value passed explicitly.
    - Diagnostic output ([cDebug], [cWarning]) is left out of the planners;
      the debug line of [swapSuggestion] is modelled apart, in
      [swapSuggestion_logged]. *)

From Stdlib Require Import ZArith Lia List Bool.
From Stdlib Require Import Floats Uint63.
From stdpp Require Import gmap strings.

Local Open Scope Z_scope.

(** ** Machine integers *)

Definition qint64_min : Z := - 2 ^ 63.
Definition qint64_max : Z := 2 ^ 63 - 1.

(** Two's-complement wrap-around to 64 and to 32 bits. *)
Definition wrap64 (z : Z) : Z := (z + 2 ^ 63) mod 2 ^ 64 - 2 ^ 63.
Definition wrap32 (z : Z) : Z := (z + 2 ^ 31) mod 2 ^ 32 - 2 ^ 31.

Definition qint64_range (z : Z) : Prop := qint64_min <= z <= qint64_max.

(** The [qint64] operators of the source. Division is C++'s, truncating
    toward zero. *)
Definition add64 (a b : Z) : Z := wrap64 (a + b).
Definition sub64 (a b : Z) : Z := wrap64 (a - b).
Definition mul64 (a b : Z) : Z := wrap64 (a * b).
Definition div64 (a b : Z) : Z := wrap64 (a ÷ b).

Declare Scope qint64_scope.
Delimit Scope qint64_scope with q64.
Arguments add64 (a b)%_q64.
Arguments sub64 (a b)%_q64.
Arguments mul64 (a b)%_q64.
Arguments div64 (a b)%_q64.
Infix "+" := add64 : qint64_scope.
Infix "-" := sub64 : qint64_scope.
Infix "*" := mul64 : qint64_scope.
Infix "/" := div64 : qint64_scope.

(** ** Units ([utils/Units.h], the literals [_MiB] and [_GiB]) *)

Definition MiB (n : Z) : Z := n * 1024 * 1024.
Definition GiB (n : Z) : Z := n * 1024 * 1024 * 1024.

(** ** Conversions between [qint64] and [qreal] *)

(** [qreal( z )]: the binary64 value nearest to the integer (ties to even). *)
Definition qint64_to_qreal (z : Z) : float :=
  if z =? qint64_min then (- Z.ldexp one 63)%float
  else if z <? 0 then (- of_uint63 (Uint63.of_Z (- z)))%float
  else of_uint63 (Uint63.of_Z z).

(** [qint64( x )]: truncation toward zero. Outside the range of [qint64]
    (and on NaN) the conversion is not defined by the language; x86-64 yields
    the smallest [qint64], which is what the model returns. *)
Definition qreal_to_qint64 (x : float) : Z :=
  match Prim2SF x with
  | S754_zero _ => 0
  | S754_finite s m e =>
      let magnitude := Z.shiftl (Z.pos m) e in
      let v := if s then - magnitude else magnitude in
      if (qint64_min <=? v) && (v <=? qint64_max) then v else qint64_min
  | S754_infinity _ | S754_nan => qint64_min
  end.

(** The literal [0.10]: the binary64 value nearest to one tenth. *)
Definition one_tenth : float := Eval vm_compute in (of_uint63 1 / of_uint63 10)%float.

(** ** Data model *)

Module Config.
(** Modelled from the spec: [Config::SwapChoice] is declared in [Config.h],
    which is not among the sources; the specification's data model gives
    the enumeration None, SmallSwap, FullSwap. *)
Inductive SwapChoice : Set := NoSwap | SmallSwap | FullSwap.

Definition SwapChoice_eqb (a b : SwapChoice) : bool :=
  match a, b with
  | NoSwap, NoSwap | SmallSwap, SmallSwap | FullSwap, FullSwap => true
  | _, _ => false
  end.
End Config.

Module PartitionRole.
(** kpmcore's [PartitionRole]: a set of role flags held in one integer. *)
Definition Roles := Z.

Definition Primary : Roles := 1.
Definition Extended : Roles := 2.
Definition Logical : Roles := 4.
Definition Unallocated : Roles := 8.

(** [roles.has( r )]: some flag of [r] is set in [roles]. *)
Definition has (roles r : Roles) : bool := negb (Z.land roles r =? 0).
End PartitionRole.

Module FileSystem.
(** kpmcore's [FileSystem::Type]; the types the source names, and the rest
    by their number. *)
Inductive Type_ : Set := Unknown | Ext4 | Fat32 | LinuxSwap | Other (id : Z).

Definition is_Unknown (t : Type_) : bool :=
  match t with Unknown => true | _ => false end.

Definition is_LinuxSwap (t : Type_) : bool :=
  match t with LinuxSwap => true | _ => false end.
End FileSystem.

Module PartitionTable.
(** kpmcore's [PartitionTable::TableType]. *)
Inductive TableType : Set :=
| unknownTableType | aix | bsd | dasd | msdos | msdos_sectorbased | dvh
| gpt | loop | mac | pc98 | amiga | sun | vmd.

Definition is_unknownTableType (t : TableType) : bool :=
  match t with unknownTableType => true | _ => false end.

(** The partition-table flags the source passes: [KPM_PARTITION_FLAG( None )]
    and [KPM_PARTITION_FLAG_ESP]. *)
Inductive Flag : Set := FlagNone | FlagEsp.
End PartitionTable.

(** kpmcore's [Device], as far as the planners read it. *)
Record Device : Set := {
  logicalSize : Z;
  totalLogical : Z;
  capacity : Z
}.

(** What [partition->parent()] may point to: the partition table itself, or
    an enclosing partition with its roles. [dynamic_cast< Partition* >]
    succeeds on the second only. *)
Inductive PartitionNode : Set :=
| TableNode
| PartitionParent (parentRoles : PartitionRole.Roles).

(** A [Partition] with the properties [PartitionInfo] attaches to it. The
    constructors of [KPMHelpers] are not among the sources; the record keeps
    every argument they are given. *)
Record Partition : Set := {
  parent : option PartitionNode;
  roles : PartitionRole.Roles;
  fsType : FileSystem.Type_;
  fsLabel : string;
  firstSector : Z;
  lastSector : Z;
  luksPassphrase : option string;
  activeFlags : PartitionTable.Flag;
  label : option string;
  format : bool;
  mountPoint : string
}.

Module Choices.
Record AutoPartitionOptions : Set := {
  defaultPartitionTableType : string;
  defaultFsType : string;
  efiPartitionMountPoint : string;
  requiredSpaceB : Z;
  swap : Config.SwapChoice;
  auto_luksPassphrase : string
}.

Record ReplacePartitionOptions : Set := {
  replace_luksPassphrase : string
}.
End Choices.

(** ** The environment *)

(** The process-wide state the source reads through singletons. *)
Record Environment : Type := {
  (** [CalamaresUtils::System::instance()->getTotalMemoryB()] *)
  getTotalMemoryB : Z * float;
  (** [PartUtils::isEfiSystem()] *)
  isEfiSystem : bool;
  (** [Calamares::JobQueue::instance()->globalStorage()], its values as
      strings *)
  globalStorage : gmap string string
}.

(** The helper functions the source calls whose definitions are in other
    files of the project or in kpmcore. The planners are stated for any
    implementation of them. *)
Class Helpers : Type := {
  (** [CalamaresUtils::bytesToSectors( bytes, blocksize )] *)
  bytesToSectors : Z -> Z -> Z;
  (** [PartitionSize( text ).toBytes( totalSize )] *)
  toBytes : string -> Z -> Z;
  (** [PartitionTable::nameToTableType( name )] *)
  nameToTableType : string -> PartitionTable.TableType;
  (** [PartUtils::findFS( name, &type )], the type it stores *)
  findFS : string -> FileSystem.Type_
}.

(** ** PartitionCoreModule *)

(** One call on the core module, with its arguments. [createPartition] is
    called with and without its flags argument. *)
Inductive CoreCall : Type :=
| InitLayout (fs : FileSystem.Type_)
| CreatePartitionTable (dev : Device) (type : PartitionTable.TableType)
| CreatePartition (dev : Device) (partition : Partition)
                  (flags : option PartitionTable.Flag)
| DeletePartition (dev : Device) (partition : Partition)
| LayoutApply (dev : Device) (firstSector lastSector : Z) (luksPassphrase : string)
| DumpQueue.

(** The core module is its queue of calls, oldest first. *)
Record PartitionCoreModule : Type := { queue : list CoreCall }.

(** A computation on the core module. *)
Definition Core (A : Type) : Type := PartitionCoreModule -> A * PartitionCoreModule.

Definition ret {A} (a : A) : Core A := fun core => (a, core).

Definition bind {A B} (m : Core A) (k : A -> Core B) : Core B :=
  fun core => let '(a, core') := m core in k a core'.

Notation "'let*' x := m 'in' k" := (bind m (fun x => k))
  (at level 10, x name, m at level 100, k at level 200, only parsing).
Notation "m ;;; k" := (bind m (fun _ => k))
  (at level 100, k at level 200, right associativity, only parsing).

Definition call (c : CoreCall) : Core unit :=
  fun core => (tt, {| queue := queue core ++ [c] |}).

(** [if ( b ) { m }] *)
Definition when (b : bool) (m : Core unit) : Core unit :=
  if b then m else ret tt.

Definition exec {A} (m : Core A) (core : PartitionCoreModule) : list CoreCall :=
  queue (snd (m core)).

Definition emptyCore : PartitionCoreModule := {| queue := [] |}.

(** ** KPMHelpers and PartitionInfo *)

Module KPMHelpers.
Definition createNewPartition (parent : option PartitionNode)
    (role : PartitionRole.Roles) (fsType : FileSystem.Type_) (fsLabel : string)
    (firstSector lastSector : Z) (flags : PartitionTable.Flag) : Partition :=
  {| parent := parent; roles := role; fsType := fsType; fsLabel := fsLabel;
     firstSector := firstSector; lastSector := lastSector;
     luksPassphrase := None; activeFlags := flags;
     label := None; format := false; mountPoint := "" |}.

Definition createNewEncryptedPartition (parent : option PartitionNode)
    (role : PartitionRole.Roles) (fsType : FileSystem.Type_) (fsLabel : string)
    (firstSector lastSector : Z) (passphrase : string)
    (flags : PartitionTable.Flag) : Partition :=
  {| parent := parent; roles := role; fsType := fsType; fsLabel := fsLabel;
     firstSector := firstSector; lastSector := lastSector;
     luksPassphrase := Some passphrase; activeFlags := flags;
     label := None; format := false; mountPoint := "" |}.
End KPMHelpers.

Module PartitionInfo.
Definition setFormat (p : Partition) (value : bool) : Partition :=
  {| parent := parent p; roles := roles p; fsType := fsType p;
     fsLabel := fsLabel p; firstSector := firstSector p;
     lastSector := lastSector p; luksPassphrase := luksPassphrase p;
     activeFlags := activeFlags p; label := label p;
     format := value; mountPoint := mountPoint p |}.

Definition setMountPoint (p : Partition) (value : string) : Partition :=
  {| parent := parent p; roles := roles p; fsType := fsType p;
     fsLabel := fsLabel p; firstSector := firstSector p;
     lastSector := lastSector p; luksPassphrase := luksPassphrase p;
     activeFlags := activeFlags p; label := label p;
     format := format p; mountPoint := value |}.
End PartitionInfo.

(** [partition->setLabel( text )] *)
Definition setLabel (p : Partition) (text : string) : Partition :=
  {| parent := parent p; roles := roles p; fsType := fsType p;
     fsLabel := fsLabel p; firstSector := firstSector p;
     lastSector := lastSector p; luksPassphrase := luksPassphrase p;
     activeFlags := activeFlags p; label := Some text;
     format := format p; mountPoint := mountPoint p |}.

(** [text.isEmpty()] *)
Definition isEmpty (text : string) : bool :=
  match text with EmptyString => true | String _ _ => false end.

(** ** PartitionActions::swapSuggestion *)

(** The four steps of the function, each one block of the source. *)

(** "Ramp up quickly to 8GiB, then follow memory size" *)
Definition rampUp (availableRamB : Z) : Z :=
  if availableRamB <=? GiB 4 then (availableRamB * 2)%q64
  else if availableRamB <=? GiB 8 then GiB 8
  else availableRamB.

(** ".. top out at 8GiB if we don't care about suspend" *)
Definition topOut (ensureSuspendToDisk : bool) (suggestedSwapSizeB : Z) : Z :=
  if negb ensureSuspendToDisk then Z.min (GiB 8) suggestedSwapSizeB
  else suggestedSwapSizeB.

(** "Allow for a fudge factor": [suggestedSwapSizeB *= overestimationFactor],
    a product of [qreal]s converted back to [qint64]. *)
Definition fudge (suggestedSwapSizeB : Z) (overestimationFactor : float) : Z :=
  qreal_to_qint64 (qint64_to_qreal suggestedSwapSizeB * overestimationFactor)%float.

(** "don't use more than 10% of available space" *)
Definition tenPercent (ensureSuspendToDisk : bool) (suggestedSwapSizeB availableSpaceB : Z) : Z :=
  if negb ensureSuspendToDisk
  then Z.min suggestedSwapSizeB
             (qreal_to_qint64 (one_tenth * qint64_to_qreal availableSpaceB)%float)
  else suggestedSwapSizeB.

Definition swapSuggestion (env : Environment) (availableSpaceB : Z)
    (swap : Config.SwapChoice) : Z :=
  if negb (Config.SwapChoice_eqb swap Config.SmallSwap)
     && negb (Config.SwapChoice_eqb swap Config.FullSwap)
  then 0
  else
    let memory := getTotalMemoryB env in
    let availableRamB := wrap64 (fst memory) in
    let overestimationFactor := snd memory in
    let ensureSuspendToDisk := Config.SwapChoice_eqb swap Config.FullSwap in
    let suggestedSwapSizeB := rampUp availableRamB in
    let suggestedSwapSizeB := topOut ensureSuspendToDisk suggestedSwapSizeB in
    let suggestedSwapSizeB := fudge suggestedSwapSizeB overestimationFactor in
    let suggestedSwapSizeB := tenPercent ensureSuspendToDisk suggestedSwapSizeB availableSpaceB in
    suggestedSwapSizeB.

(** ** PartitionActions::doAutopartition and doReplacePartition *)

Section Planners.
Context {helpers : Helpers}.

Import Choices.

(** [Q_ASSERT( efiSectorCount > 0 )] is compiled out of release builds and
    leaves no trace in the queue; the asserted condition is the predicate
    [efiSectorCount_asserted] below. A [logicalSize] of zero, on which the
    source divides, is outside the defined behaviour of the source. *)
Definition doAutopartition (env : Environment) (dev : Device)
    (o : AutoPartitionOptions) : Core unit :=
  let gs := globalStorage env in
  let isEfi := isEfiSystem env in
  let empty_space_sizeB := wrap32 (if isEfi then MiB 2 else MiB 1) in
  let firstFreeSector := bytesToSectors empty_space_sizeB (logicalSize dev) in
  let partType := nameToTableType (defaultPartitionTableType o) in
  let partType :=
    if PartitionTable.is_unknownTableType partType
    then (if isEfi then PartitionTable.gpt else PartitionTable.msdos)
    else partType in
  let type := findFS (defaultFsType o) in
  call (InitLayout (if FileSystem.is_Unknown type then FileSystem.Ext4 else type)) ;;;
  call (CreatePartitionTable dev partType) ;;;
  let* firstFreeSector :=
    (if isEfi then
       let uefisys_part_sizeB := wrap32 (MiB 300) in
       let uefisys_part_sizeB :=
         match gs !! "efiSystemPartitionSize" with
         | Some text => wrap32 (toBytes text (capacity dev))
         | None => uefisys_part_sizeB
         end in
       let efiSectorCount := bytesToSectors uefisys_part_sizeB (logicalSize dev) in
       let lastSector := (firstFreeSector + efiSectorCount - 1)%q64 in
       let efiPartition :=
         KPMHelpers.createNewPartition (Some TableNode) PartitionRole.Primary
           FileSystem.Fat32 "" firstFreeSector lastSector PartitionTable.FlagNone in
       let efiPartition := PartitionInfo.setFormat efiPartition true in
       let efiPartition := PartitionInfo.setMountPoint efiPartition (efiPartitionMountPoint o) in
       let efiPartition :=
         match gs !! "efiSystemPartitionName" with
         | Some text => setLabel efiPartition text
         | None => efiPartition
         end in
       call (CreatePartition dev efiPartition (Some PartitionTable.FlagEsp)) ;;;
       ret (lastSector + 1)%q64
     else ret firstFreeSector) in
  let mayCreateSwap :=
    Config.SwapChoice_eqb (swap o) Config.SmallSwap
    || Config.SwapChoice_eqb (swap o) Config.FullSwap in
  let '(shouldCreateSwap, suggestedSwapSizeB) :=
    if mayCreateSwap then
      let availableSpaceB := ((totalLogical dev - firstFreeSector) * logicalSize dev)%q64 in
      let suggestedSwapSizeB := swapSuggestion env availableSpaceB (swap o) in
      let requiredSpaceB := (requiredSpaceB o + MiB 600 + suggestedSwapSizeB)%q64 in
      (availableSpaceB >? requiredSpaceB, suggestedSwapSizeB)
    else (false, 0) in
  let lastSectorForRoot := (totalLogical dev - 1)%q64 in
  let lastSectorForRoot :=
    if shouldCreateSwap
    then (lastSectorForRoot - (suggestedSwapSizeB / logicalSize dev + 1))%q64
    else lastSectorForRoot in
  call (LayoutApply dev firstFreeSector lastSectorForRoot (auto_luksPassphrase o)) ;;;
  when shouldCreateSwap
    (let swapPartition :=
       if isEmpty (auto_luksPassphrase o)
       then KPMHelpers.createNewPartition (Some TableNode) PartitionRole.Primary
              FileSystem.LinuxSwap "swap" (lastSectorForRoot + 1)%q64
              (totalLogical dev - 1)%q64 PartitionTable.FlagNone
       else KPMHelpers.createNewEncryptedPartition (Some TableNode) PartitionRole.Primary
              FileSystem.LinuxSwap "swap" (lastSectorForRoot + 1)%q64
              (totalLogical dev - 1)%q64 (auto_luksPassphrase o) PartitionTable.FlagNone in
     let swapPartition := PartitionInfo.setFormat swapPartition true in
     let swapPartition :=
       match gs !! "swapPartitionName" with
       | Some text => setLabel swapPartition text
       | None => swapPartition
       end in
     call (CreatePartition dev swapPartition None)) ;;;
  call DumpQueue.

(** The role the replacement takes: the first half of [doReplacePartition],
    the value of its local [newRoles] when the sectors are saved. *)
Definition replacementRoles (partition : Partition) : PartitionRole.Roles :=
  let newRoles := roles partition in
  let newRoles :=
    if PartitionRole.has (roles partition) PartitionRole.Extended
    then PartitionRole.Primary else newRoles in
  let newRoles :=
    if PartitionRole.has (roles partition) PartitionRole.Unallocated
    then
      let newRoles := PartitionRole.Primary in
      match parent partition with
      | Some (PartitionParent parentRoles) =>
          if PartitionRole.has parentRoles PartitionRole.Extended
          then PartitionRole.Logical else newRoles
      | Some TableNode | None => newRoles
      end
    else newRoles in
  newRoles.

(** [newRoles] is computed and, in this revision of the source, handed to
    no call. *)
Definition doReplacePartition (dev : Device) (partition : Partition)
    (o : ReplacePartitionOptions) : Core unit :=
  let newRoles := replacementRoles partition in
  let firstSector := firstSector partition in
  let lastSector := lastSector partition in
  when (negb (PartitionRole.has (roles partition) PartitionRole.Unallocated))
    (call (DeletePartition dev partition)) ;;;
  call (LayoutApply dev firstSector lastSector (replace_luksPassphrase o)) ;;;
  call DumpQueue.

End Planners.

(** ** Reading a queue *)

(** The sector range a call allocates: a created partition's, or the range
    handed to the layout step. *)
Definition sectorRange (c : CoreCall) : option (Z * Z) :=
  match c with
  | CreatePartition _ p _ => Some (firstSector p, lastSector p)
  | LayoutApply _ first last _ => Some (first, last)
  | _ => None
  end.

Definition sectorRanges (calls : list CoreCall) : list (Z * Z) :=
  omap sectorRange calls.

(** The partitions a queue creates directly, in order. *)
Definition createdPartition (c : CoreCall) : option Partition :=
  match c with CreatePartition _ p _ => Some p | _ => None end.

Definition createdPartitions (calls : list CoreCall) : list Partition :=
  omap createdPartition calls.

Definition isSwap (p : Partition) : bool := FileSystem.is_LinuxSwap (fsType p).

Definition swapPartitions (calls : list CoreCall) : list Partition :=
  filter (fun p => isSwap p = true) (createdPartitions calls).

Definition includesSwap (calls : list CoreCall) : bool :=
  existsb isSwap (createdPartitions calls).

(** The ranges handed to the layout step. *)
Definition layoutRange (c : CoreCall) : option (Z * Z) :=
  match c with LayoutApply _ first last _ => Some (first, last) | _ => None end.

Definition layoutRanges (calls : list CoreCall) : list (Z * Z) :=
  omap layoutRange calls.

Definition isDelete (c : CoreCall) : bool :=
  match c with DeletePartition _ _ => true | _ => false end.

(** Ranges [(first, last)] are inclusive. *)
Definition within (total : Z) (r : Z * Z) : Prop :=
  0 <= fst r /\ fst r <= snd r /\ snd r <= total - 1.

Definition disjoint (r1 r2 : Z * Z) : Prop :=
  snd r1 < fst r2 \/ snd r2 < fst r1.

(** ** The locals of doAutopartition as functions of its inputs *)

Section AutopartitionLocals.
Context {helpers : Helpers}.
Variables (env : Environment) (dev : Device) (o : Choices.AutoPartitionOptions).

(** [firstFreeSector] as first assigned: the reserved leading space. *)
Definition leadingSectors : Z :=
  bytesToSectors (wrap32 (if isEfiSystem env then MiB 2 else MiB 1)) (logicalSize dev).

Definition uefisys_part_sizeB : Z :=
  match globalStorage env !! "efiSystemPartitionSize" with
  | Some text => wrap32 (toBytes text (capacity dev))
  | None => wrap32 (MiB 300)
  end.

Definition efiSectorCount : Z := bytesToSectors uefisys_part_sizeB (logicalSize dev).

(** The condition of [Q_ASSERT( efiSectorCount > 0 )], reached on EFI only. *)
Definition efiSectorCount_asserted : Prop :=
  isEfiSystem env = true -> efiSectorCount > 0.

(** [lastSector] of the EFI system partition. *)
Definition efiLastSector : Z := (leadingSectors + efiSectorCount - 1)%q64.

(** [firstFreeSector] after the EFI block: the cursor the root range
    starts at. *)
Definition firstFreeSector : Z :=
  if isEfiSystem env then (efiLastSector + 1)%q64 else leadingSectors.

Definition mayCreateSwap : bool :=
  Config.SwapChoice_eqb (Choices.swap o) Config.SmallSwap
  || Config.SwapChoice_eqb (Choices.swap o) Config.FullSwap.

Definition availableSpaceB : Z :=
  ((totalLogical dev - firstFreeSector) * logicalSize dev)%q64.

(** [suggestedSwapSizeB] as assigned inside [if ( mayCreateSwap )]. *)
Definition suggestedSwapSizeB : Z :=
  swapSuggestion env availableSpaceB (Choices.swap o).

Definition requiredSpaceB : Z :=
  (Choices.requiredSpaceB o + MiB 600 + suggestedSwapSizeB)%q64.

Definition shouldCreateSwap : bool :=
  mayCreateSwap && (availableSpaceB >? requiredSpaceB).

Definition lastSectorForRoot : Z :=
  if shouldCreateSwap
  then (totalLogical dev - 1 - (suggestedSwapSizeB / logicalSize dev + 1))%q64
  else (totalLogical dev - 1)%q64.

Definition efiPartition : Partition :=
  let p := KPMHelpers.createNewPartition (Some TableNode) PartitionRole.Primary
             FileSystem.Fat32 "" leadingSectors efiLastSector PartitionTable.FlagNone in
  let p := PartitionInfo.setMountPoint (PartitionInfo.setFormat p true)
             (Choices.efiPartitionMountPoint o) in
  match globalStorage env !! "efiSystemPartitionName" with
  | Some text => setLabel p text
  | None => p
  end.

(** The swap partition as created for a given passphrase. *)
Definition swapPartitionFor (passphrase : string) : Partition :=
  let p :=
    if isEmpty passphrase
    then KPMHelpers.createNewPartition (Some TableNode) PartitionRole.Primary
           FileSystem.LinuxSwap "swap" (lastSectorForRoot + 1)%q64
           (totalLogical dev - 1)%q64 PartitionTable.FlagNone
    else KPMHelpers.createNewEncryptedPartition (Some TableNode) PartitionRole.Primary
           FileSystem.LinuxSwap "swap" (lastSectorForRoot + 1)%q64
           (totalLogical dev - 1)%q64 passphrase PartitionTable.FlagNone in
  let p := PartitionInfo.setFormat p true in
  match globalStorage env !! "swapPartitionName" with
  | Some text => setLabel p text
  | None => p
  end.

Definition swapPartition : Partition :=
  swapPartitionFor (Choices.auto_luksPassphrase o).

Definition partType : PartitionTable.TableType :=
  let t := nameToTableType (Choices.defaultPartitionTableType o) in
  if PartitionTable.is_unknownTableType t
  then (if isEfiSystem env then PartitionTable.gpt else PartitionTable.msdos)
  else t.

Definition layoutType : FileSystem.Type_ :=
  let t := findFS (Choices.defaultFsType o) in
  if FileSystem.is_Unknown t then FileSystem.Ext4 else t.

(** The calls of one run, in order. *)
Definition autopartitionCalls : list CoreCall :=
  [InitLayout layoutType; CreatePartitionTable dev partType]
  ++ (if isEfiSystem env
      then [CreatePartition dev efiPartition (Some PartitionTable.FlagEsp)] else [])
  ++ [LayoutApply dev firstFreeSector lastSectorForRoot (Choices.auto_luksPassphrase o)]
  ++ (if shouldCreateSwap then [CreatePartition dev swapPartition None] else [])
  ++ [DumpQueue].

End AutopartitionLocals.

(** ** The locals of swapSuggestion and of doReplacePartition *)

(** The locals of [swapSuggestion] read from the environment. *)
Definition availableRamB (env : Environment) : Z := wrap64 (fst (getTotalMemoryB env)).
Definition overestimationFactor (env : Environment) : float := snd (getTotalMemoryB env).

Definition isSwapChoice (swap : Config.SwapChoice) : Prop :=
  swap = Config.SmallSwap \/ swap = Config.FullSwap.

(** [ensureSuspendToDisk] *)
Definition ensureSuspendToDisk (swap : Config.SwapChoice) : bool :=
  Config.SwapChoice_eqb swap Config.FullSwap.

(** [partition->parent()] is a partition that has the Extended role. *)
Definition parentIsExtended (partition : Partition) : bool :=
  match parent partition with
  | Some (PartitionParent parentRoles) => PartitionRole.has parentRoles PartitionRole.Extended
  | Some TableNode | None => false
  end.

(** The option bundle with another passphrase, and a partition with another
    passphrase field. *)
Definition withPassphrase (o : Choices.AutoPartitionOptions) (passphrase : string)
    : Choices.AutoPartitionOptions :=
  {| Choices.defaultPartitionTableType := Choices.defaultPartitionTableType o;
     Choices.defaultFsType := Choices.defaultFsType o;
     Choices.efiPartitionMountPoint := Choices.efiPartitionMountPoint o;
     Choices.requiredSpaceB := Choices.requiredSpaceB o;
     Choices.swap := Choices.swap o;
     Choices.auto_luksPassphrase := passphrase |}.

Definition setPassphrase (value : option string) (p : Partition) : Partition :=
  {| parent := parent p; roles := roles p; fsType := fsType p;
     fsLabel := fsLabel p; firstSector := firstSector p;
     lastSector := lastSector p; luksPassphrase := value;
     activeFlags := activeFlags p; label := label p;
     format := format p; mountPoint := mountPoint p |}.

(** ** Concrete inputs *)

(** An environment of a BIOS machine with an empty global storage and the
    given memory figures. *)
Definition memoryOnly (ramB : Z) (factor : float) : Environment :=
  {| getTotalMemoryB := (ramB, factor); isEfiSystem := false; globalStorage := ∅ |}.

(** Leading decimal digits of a text, and what follows them. *)
Fixpoint parseDigits (text : string) (acc : Z) : Z * string :=
  match text with
  | String c rest =>
      let d := Z.of_nat (Ascii.nat_of_ascii c) - 48 in
      if (0 <=? d) && (d <=? 9) then parseDigits rest (10 * acc + d) else (acc, text)
  | EmptyString => (acc, text)
  end.

(** Modelled from the spec: the helpers of [utils/Units.h], [PartitionSize],
    [PartUtils] and kpmcore are not among the sources. Section 6 gives the
    conversion to sectors as bytes divided by the logical sector size,
    truncated; section 4.2 gives a size as a size-or-percentage text resolved
    against the device capacity (here [N%] or [NMiB], anything else being
    invalid, -1), and the table and filesystem types as recognised names or
    unknown. Used to evaluate the planners on concrete inputs only. *)
Definition exampleHelpers : Helpers :=
  {| bytesToSectors bytes blocksize := bytes ÷ blocksize;
     toBytes text total :=
       let '(n, unit) := parseDigits text 0 in
       if String.eqb unit "%" then total * n ÷ 100
       else if String.eqb unit "MiB" then MiB n
       else -1;
     nameToTableType name :=
       if String.eqb name "gpt" then PartitionTable.gpt
       else if String.eqb name "msdos" then PartitionTable.msdos
       else PartitionTable.unknownTableType;
     findFS name :=
       if String.eqb name "ext4" then FileSystem.Ext4
       else if String.eqb name "fat32" then FileSystem.Fat32
       else FileSystem.Unknown |}.

(** The first scenario of the specification: a 20 GiB disk with 512-byte
    sectors, EFI firmware, 16 GiB of RAM reported exactly, SmallSwap and
    8 GiB of required space. *)
Definition efiMachine : Environment :=
  {| getTotalMemoryB := (GiB 16, one); isEfiSystem := true; globalStorage := ∅ |}.

Definition disk20GiB : Device :=
  {| logicalSize := 512; totalLogical := 41943040; capacity := GiB 20 |}.

Definition smallSwapOptions : Choices.AutoPartitionOptions :=
  {| Choices.defaultPartitionTableType := "";
     Choices.defaultFsType := "";
     Choices.efiPartitionMountPoint := "/boot/efi";
     Choices.requiredSpaceB := GiB 8;
     Choices.swap := Config.SmallSwap;
     Choices.auto_luksPassphrase := "" |}.

(** A BIOS machine and a disk of 1000 sectors, smaller than the reserved
    leading space. *)
Definition biosMachine : Environment :=
  {| getTotalMemoryB := (GiB 16, one); isEfiSystem := false; globalStorage := ∅ |}.

Definition tinyDisk : Device :=
  {| logicalSize := 512; totalLogical := 1000; capacity := 512000 |}.

Definition noSwapOptions : Choices.AutoPartitionOptions :=
  {| Choices.defaultPartitionTableType := "";
     Choices.defaultFsType := "";
     Choices.efiPartitionMountPoint := "/boot/efi";
     Choices.requiredSpaceB := 0;
     Choices.swap := Config.NoSwap;
     Choices.auto_luksPassphrase := "" |}.

(** A free-space descriptor inside an extended partition that itself carries
    the Extended flag. *)
Definition extendedFreeSpace : Partition :=
  {| parent := Some (PartitionParent PartitionRole.Extended);
     roles := Z.lor PartitionRole.Extended PartitionRole.Unallocated;
     fsType := FileSystem.Unknown; fsLabel := "";
     firstSector := 1000; lastSector := 5000;
     luksPassphrase := None; activeFlags := PartitionTable.FlagNone;
     label := None; format := false; mountPoint := "" |}.

(** ** Further readings of a queue, and inputs that differ in one part *)

Definition isInitLayout (c : CoreCall) : bool :=
  match c with InitLayout _ => true | _ => false end.

Definition isCreatePartitionTable (c : CoreCall) : bool :=
  match c with CreatePartitionTable _ _ => true | _ => false end.

Definition isCreatePartition (c : CoreCall) : bool :=
  match c with CreatePartition _ _ _ => true | _ => false end.

Definition isLayoutApply (c : CoreCall) : bool :=
  match c with LayoutApply _ _ _ _ => true | _ => false end.

Definition isDumpQueue (c : CoreCall) : bool :=
  match c with DumpQueue => true | _ => false end.

(** How many calls of a kind a queue holds. *)
Definition countCalls (kind : CoreCall -> bool) (calls : list CoreCall) : nat :=
  length (List.filter kind calls).

(** The passphrases handed to the layout step. *)
Definition layoutPassphrase (c : CoreCall) : option string :=
  match c with LayoutApply _ _ _ passphrase => Some passphrase | _ => None end.

Definition layoutPassphrases (calls : list CoreCall) : list string :=
  omap layoutPassphrase calls.

(** The partitions created with the ESP flag. *)
Definition espPartition (c : CoreCall) : option Partition :=
  match c with
  | CreatePartition _ p (Some PartitionTable.FlagEsp) => Some p
  | _ => None
  end.

Definition espPartitions (calls : list CoreCall) : list Partition :=
  omap espPartition calls.

(** The number of sectors of an inclusive range. *)
Definition rangeLength (r : Z * Z) : Z := snd r - fst r + 1.

(** Each range starts on the sector after the one before it ends. *)
Fixpoint contiguous (rs : list (Z * Z)) : Prop :=
  match rs with
  | r1 :: ((r2 :: _) as rest) => fst r2 = snd r1 + 1 /\ contiguous rest
  | _ => True
  end.

Definition withSwap (o : Choices.AutoPartitionOptions) (choice : Config.SwapChoice)
    : Choices.AutoPartitionOptions :=
  {| Choices.defaultPartitionTableType := Choices.defaultPartitionTableType o;
     Choices.defaultFsType := Choices.defaultFsType o;
     Choices.efiPartitionMountPoint := Choices.efiPartitionMountPoint o;
     Choices.requiredSpaceB := Choices.requiredSpaceB o;
     Choices.swap := choice;
     Choices.auto_luksPassphrase := Choices.auto_luksPassphrase o |}.

Definition withMemory (env : Environment) (memory : Z * float) : Environment :=
  {| getTotalMemoryB := memory; isEfiSystem := isEfiSystem env;
     globalStorage := globalStorage env |}.

Definition withStorage (env : Environment) (gs : gmap string string) : Environment :=
  {| getTotalMemoryB := getTotalMemoryB env; isEfiSystem := isEfiSystem env;
     globalStorage := gs |}.

Definition withCapacity (dev : Device) (bytes : Z) : Device :=
  {| logicalSize := logicalSize dev; totalLogical := totalLogical dev;
     capacity := bytes |}.

(** The second scenario of the specification: FullSwap with 32 GiB of RAM on
    a BIOS machine. *)
Definition fullSwapOptions : Choices.AutoPartitionOptions :=
  {| Choices.defaultPartitionTableType := "";
     Choices.defaultFsType := "";
     Choices.efiPartitionMountPoint := "/boot/efi";
     Choices.requiredSpaceB := GiB 8;
     Choices.swap := Config.FullSwap;
     Choices.auto_luksPassphrase := "" |}.

(** A call with the label of the partition it creates set: for the creation
    calls made with the ESP flag, and for those made without a flags
    argument. *)
Definition relabelEsp (text : string) (c : CoreCall) : CoreCall :=
  match c with
  | CreatePartition dev p (Some PartitionTable.FlagEsp) =>
      CreatePartition dev (setLabel p text) (Some PartitionTable.FlagEsp)
  | _ => c
  end.

Definition relabelUnflagged (text : string) (c : CoreCall) : CoreCall :=
  match c with
  | CreatePartition dev p None => CreatePartition dev (setLabel p text) None
  | _ => c
  end.

Definition withRequiredSpace (o : Choices.AutoPartitionOptions) (bytes : Z)
    : Choices.AutoPartitionOptions :=
  {| Choices.defaultPartitionTableType := Choices.defaultPartitionTableType o;
     Choices.defaultFsType := Choices.defaultFsType o;
     Choices.efiPartitionMountPoint := Choices.efiPartitionMountPoint o;
     Choices.requiredSpaceB := bytes;
     Choices.swap := Choices.swap o;
     Choices.auto_luksPassphrase := Choices.auto_luksPassphrase o |}.

(** ** The debug line of swapSuggestion, and the IEEE 754 reading of its
    scaling step *)

(** What [cDebug()] receives in [swapSuggestion]: the text "Suggested swap
    size:", the size in GiB as a [qreal], and "GiB". *)
Inductive DebugMessage : Set := SuggestedSwapSize (sizeGiB : float).

(** [swapSuggestion] with the debug stream it writes to: the function as it
    is in the source, line for line, the stream being passed in and out. *)
Definition swapSuggestion_logged (env : Environment) (availableSpaceB : Z)
    (swap : Config.SwapChoice) (debug : list DebugMessage) : Z * list DebugMessage :=
  if negb (Config.SwapChoice_eqb swap Config.SmallSwap)
     && negb (Config.SwapChoice_eqb swap Config.FullSwap)
  then (0, debug)
  else
    let suggestedSwapSizeB := 0 in
    let memory := getTotalMemoryB env in
    let availableRamB := wrap64 (fst memory) in
    let overestimationFactor := snd memory in
    let ensureSuspendToDisk := Config.SwapChoice_eqb swap Config.FullSwap in
    let suggestedSwapSizeB :=
      if availableRamB <=? GiB 4 then (availableRamB * 2)%q64
      else if availableRamB <=? GiB 8 then GiB 8
      else availableRamB in
    let suggestedSwapSizeB :=
      if negb ensureSuspendToDisk then Z.min (GiB 8) suggestedSwapSizeB
      else suggestedSwapSizeB in
    let suggestedSwapSizeB :=
      qreal_to_qint64 (qint64_to_qreal suggestedSwapSizeB * overestimationFactor)%float in
    let suggestedSwapSizeB :=
      if negb ensureSuspendToDisk
      then Z.min suggestedSwapSizeB
                 (qreal_to_qint64 (one_tenth * qint64_to_qreal availableSpaceB)%float)
      else suggestedSwapSizeB in
    let debug :=
      debug ++ [SuggestedSwapSize
                  (qint64_to_qreal suggestedSwapSizeB
                   / of_uint63 1024 / of_uint63 1024 / of_uint63 1024)%float] in
    (suggestedSwapSizeB, debug).

(** The [qint64] a binary64 number, given by the Standard Library's
    [spec_float], converts to: its magnitude [m * 2 ^ e] truncated toward
    zero, with its sign; the smallest [qint64] outside the range. *)
Definition truncate_spec (x : spec_float) : Z :=
  match x with
  | S754_zero _ => 0
  | S754_finite s m e =>
      let magnitude := if 0 <=? e then Z.pos m * 2 ^ e else Z.pos m / 2 ^ (- e) in
      let v := if s then - magnitude else magnitude in
      if (qint64_min <=? v) && (v <=? qint64_max) then v else qint64_min
  | S754_infinity _ | S754_nan => qint64_min
  end.

(** * Properties *)

(** ** Machine arithmetic *)

Lemma wrap64_range (z : Z) : qint64_range (wrap64 z).
Proof.
  unfold qint64_range, wrap64, qint64_min, qint64_max.
  pose proof (Z.mod_pos_bound (z + 2 ^ 63) (2 ^ 64) ltac:(lia)). lia.
Qed.

Lemma wrap64_id (z : Z) : qint64_range z -> wrap64 z = z.
Proof.
  unfold qint64_range, wrap64, qint64_min, qint64_max. intros Hz.
  rewrite Z.mod_small by lia. lia.
Qed.

Lemma add64_id (a b : Z) : qint64_range (a + b) -> (a + b)%q64 = a + b.
Proof. apply wrap64_id. Qed.

Lemma sub64_id (a b : Z) : qint64_range (a - b) -> (a - b)%q64 = a - b.
Proof. apply wrap64_id. Qed.

Lemma mul64_id (a b : Z) : qint64_range (a * b) -> (a * b)%q64 = a * b.
Proof. apply wrap64_id. Qed.

Lemma div64_id (a b : Z) : qint64_range (a ÷ b) -> (a / b)%q64 = a ÷ b.
Proof. apply wrap64_id. Qed.

(** A converted [qreal] is a [qint64]. *)
Lemma qreal_to_qint64_range (x : float) : qint64_range (qreal_to_qint64 x).
Proof.
  assert (Hmin : qint64_range qint64_min)
    by (unfold qint64_range, qint64_min, qint64_max; lia).
  assert (H0 : qint64_range 0)
    by (unfold qint64_range, qint64_min, qint64_max; lia).
  unfold qreal_to_qint64.
  destruct (Prim2SF x) as [s | s | | s m e]; try assumption.
  cbv zeta.
  destruct (_ && _) eqn:E; [| assumption].
  apply andb_prop in E as [E1 E2]. unfold qint64_range. lia.
Qed.

(** ** swapSuggestion *)

(** The function is the composition of its four steps. *)
Lemma swapSuggestion_steps (env : Environment) (availableSpaceB : Z)
    (swap : Config.SwapChoice) :
  isSwapChoice swap ->
  swapSuggestion env availableSpaceB swap
  = tenPercent (ensureSuspendToDisk swap)
      (fudge (topOut (ensureSuspendToDisk swap) (rampUp (availableRamB env)))
             (overestimationFactor env))
      availableSpaceB.
Proof. intros [-> | ->]; reflexivity. Qed.

Lemma swapSuggestion_NoSwap (env : Environment) (availableSpaceB : Z) :
  swapSuggestion env availableSpaceB Config.NoSwap = 0.
Proof. reflexivity. Qed.

Lemma swapSuggestion_range (env : Environment) (availableSpaceB : Z)
    (swap : Config.SwapChoice) :
  qint64_range (swapSuggestion env availableSpaceB swap).
Proof.
  destruct swap.
  - rewrite swapSuggestion_NoSwap. unfold qint64_range, qint64_min, qint64_max. lia.
  - rewrite swapSuggestion_steps by (left; reflexivity).
    unfold tenPercent, ensureSuspendToDisk, fudge. cbn [Config.SwapChoice_eqb negb].
    pose proof (qreal_to_qint64_range
      (qint64_to_qreal (topOut false (rampUp (availableRamB env))) * overestimationFactor env)%float).
    pose proof (qreal_to_qint64_range (one_tenth * qint64_to_qreal availableSpaceB)%float).
    unfold qint64_range in *. lia.
  - rewrite swapSuggestion_steps by (right; reflexivity).
    unfold tenPercent, ensureSuspendToDisk, fudge. cbn [Config.SwapChoice_eqb negb].
    apply qreal_to_qint64_range.
Qed.

Lemma availableRamB_id (env : Environment) :
  0 <= fst (getTotalMemoryB env) <= qint64_max ->
  availableRamB env = fst (getTotalMemoryB env).
Proof.
  intros H. apply wrap64_id. unfold qint64_range, qint64_min, qint64_max in *. lia.
Qed.

Lemma GiB_values : GiB 4 = 4294967296 /\ GiB 8 = 8589934592.
Proof. split; reflexivity. Qed.

(** Doubling a RAM size of at most 4 GiB does not overflow. *)
Lemma rampUp_low (r : Z) : 0 <= r <= GiB 4 -> rampUp r = 2 * r.
Proof.
  intros [H0 H4]. unfold rampUp.
  destruct (Z.leb_spec r (GiB 4)) as [_ | Hgt]; [| lia].
  destruct GiB_values as [E4 _]. rewrite E4 in H4.
  rewrite mul64_id; [lia |].
  unfold qint64_range, qint64_min, qint64_max. lia.
Qed.

(** C3. For a swap choice of SmallSwap or FullSwap and a RAM size [r] (a
    non-negative [qint64]), [swapSuggestion] is its cap, scale and cap steps
    applied to the base size [rampUp r], and that base size is [2 * r] when
    [r <= 4 GiB], exactly 8 GiB when [4 GiB < r <= 8 GiB], and [r] when
    [r > 8 GiB]. *)
Theorem swapSuggestion_base_tiers (env : Environment) (availableSpaceB : Z)
    (swap : Config.SwapChoice) :
  isSwapChoice swap ->
  0 <= fst (getTotalMemoryB env) <= qint64_max ->
  let r := fst (getTotalMemoryB env) in
  let base := rampUp r in
  swapSuggestion env availableSpaceB swap
  = tenPercent (ensureSuspendToDisk swap)
      (fudge (topOut (ensureSuspendToDisk swap) base) (overestimationFactor env))
      availableSpaceB
  /\ (r <= GiB 4 -> base = 2 * r)
  /\ (GiB 4 < r <= GiB 8 -> base = GiB 8)
  /\ (GiB 8 < r -> base = r).
Proof.
  intros Hswap Hr r base. subst r base.
  split; [| split; [| split]].
  - rewrite swapSuggestion_steps by assumption.
    rewrite availableRamB_id by assumption. reflexivity.
  - intros H4. apply rampUp_low. lia.
  - intros [H4 H8]. unfold rampUp.
    destruct (Z.leb_spec (fst (getTotalMemoryB env)) (GiB 4)); [lia |].
    destruct (Z.leb_spec (fst (getTotalMemoryB env)) (GiB 8)); [reflexivity | lia].
  - intros H8. unfold rampUp.
    destruct GiB_values as [E4 E8].
    destruct (Z.leb_spec (fst (getTotalMemoryB env)) (GiB 4)); [lia |].
    destruct (Z.leb_spec (fst (getTotalMemoryB env)) (GiB 8)); [lia | reflexivity].
Qed.

(** The tiers at 6 GiB of RAM, SmallSwap. *)
Lemma swapSuggestion_base_tiers_witness :
  let env := memoryOnly (GiB 6) one in
  let r := fst (getTotalMemoryB env) in
  let base := rampUp r in
  swapSuggestion env (GiB 100) Config.SmallSwap
  = tenPercent (ensureSuspendToDisk Config.SmallSwap)
      (fudge (topOut (ensureSuspendToDisk Config.SmallSwap) base) (overestimationFactor env))
      (GiB 100)
  /\ (r <= GiB 4 -> base = 2 * r)
  /\ (GiB 4 < r <= GiB 8 -> base = GiB 8)
  /\ (GiB 8 < r -> base = r).
Proof.
  apply (swapSuggestion_base_tiers (memoryOnly (GiB 6) one) (GiB 100) Config.SmallSwap).
  - left; reflexivity.
  - vm_compute. split; discriminate.
Defined.

(** C4, as the specification states it, fails: with 4 GiB of RAM, an
    overestimation factor of 1.1 and 1 TiB available, SmallSwap suggests
    9448928051 bytes, more than 8 GiB. *)
Lemma swapSuggestion_SmallSwap_above_8GiB :
  let env := memoryOnly (GiB 4) (of_uint63 11 / of_uint63 10)%float in
  fst (getTotalMemoryB env) <= GiB 4
  /\ (one <=? overestimationFactor env)%float = true
  /\ swapSuggestion env (GiB 1024) Config.SmallSwap = 9448928051
  /\ GiB 8 < swapSuggestion env (GiB 1024) Config.SmallSwap.
Proof. vm_compute. repeat split; solve [reflexivity | discriminate]. Qed.

(** C4, amended. For a RAM size [r] of at most 4 GiB and a swap choice of
    SmallSwap or FullSwap, the provisional size before the last cap is
    [2 * r] times the overestimation factor, converted to [qint64]. FullSwap
    returns it; SmallSwap returns the smaller of it and a tenth of the
    available space, so never more than it. The 8 GiB ceiling applies before
    the factor, not after. *)
Theorem swapSuggestion_low_ram (env : Environment) (availableSpaceB : Z)
    (swap : Config.SwapChoice) :
  isSwapChoice swap ->
  0 <= fst (getTotalMemoryB env) <= GiB 4 ->
  let r := fst (getTotalMemoryB env) in
  let provisional := fudge (2 * r) (overestimationFactor env) in
  swapSuggestion env availableSpaceB swap
  = tenPercent (ensureSuspendToDisk swap) provisional availableSpaceB
  /\ (swap = Config.FullSwap -> swapSuggestion env availableSpaceB swap = provisional)
  /\ (swap = Config.SmallSwap ->
      swapSuggestion env availableSpaceB swap
      = Z.min provisional
          (qreal_to_qint64 (one_tenth * qint64_to_qreal availableSpaceB)%float)
      /\ swapSuggestion env availableSpaceB swap <= provisional).
Proof.
  intros Hswap Hr r provisional. subst r provisional.
  assert (Hsteps : swapSuggestion env availableSpaceB swap
                   = tenPercent (ensureSuspendToDisk swap)
                       (fudge (2 * fst (getTotalMemoryB env)) (overestimationFactor env))
                       availableSpaceB).
  { rewrite swapSuggestion_steps by assumption.
    destruct GiB_values as [E4 E8].
    rewrite availableRamB_id by (unfold qint64_max; lia).
    rewrite rampUp_low by assumption.
    unfold topOut. destruct (negb (ensureSuspendToDisk swap)); [| reflexivity].
    rewrite Z.min_r by lia. reflexivity. }
  split; [exact Hsteps |]. split.
  - intros ->. rewrite Hsteps. reflexivity.
  - intros ->. rewrite Hsteps. unfold tenPercent, ensureSuspendToDisk.
    cbn [Config.SwapChoice_eqb negb]. split; [reflexivity | lia].
Qed.

(** The amended statement at 2 GiB of RAM, factor 1.1, SmallSwap. *)
Lemma swapSuggestion_low_ram_witness :
  let env := memoryOnly (GiB 2) (of_uint63 11 / of_uint63 10)%float in
  let swap := Config.SmallSwap in
  let r := fst (getTotalMemoryB env) in
  let provisional := fudge (2 * r) (overestimationFactor env) in
  swapSuggestion env (GiB 100) swap
  = tenPercent (ensureSuspendToDisk swap) provisional (GiB 100)
  /\ (swap = Config.FullSwap -> swapSuggestion env (GiB 100) swap = provisional)
  /\ (swap = Config.SmallSwap ->
      swapSuggestion env (GiB 100) swap
      = Z.min provisional
          (qreal_to_qint64 (one_tenth * qint64_to_qreal (GiB 100))%float)
      /\ swapSuggestion env (GiB 100) swap <= provisional).
Proof.
  apply (swapSuggestion_low_ram
           (memoryOnly (GiB 2) (of_uint63 11 / of_uint63 10)%float)
           (GiB 100) Config.SmallSwap).
  - left; reflexivity.
  - vm_compute. split; discriminate.
Defined.

(** The conversions and the scaling step against the Standard Library's
    specification of binary64. *)
Lemma qreal_to_qint64_spec (x : float) :
  qreal_to_qint64 x = truncate_spec (Prim2SF x).
Proof.
  unfold qreal_to_qint64, truncate_spec.
  destruct (Prim2SF x) as [s | s | | s m e]; try reflexivity.
  cbv zeta. destruct (Z.leb_spec 0 e).
  - rewrite Z.shiftl_mul_pow2 by assumption. reflexivity.
  - rewrite Z.shiftl_div_pow2 by lia. reflexivity.
Qed.

Lemma qint64_to_qreal_spec (z : Z) :
  0 <= z <= qint64_max ->
  Prim2SF (qint64_to_qreal z) = binary_normalize prec emax z 0 false.
Proof.
  intros Hz. unfold qint64_to_qreal.
  assert (Hmax : qint64_max = 9223372036854775807) by reflexivity.
  assert (Hmin : qint64_min = -9223372036854775808) by reflexivity.
  destruct (Z.eqb_spec z qint64_min); [lia |].
  destruct (Z.ltb_spec z 0); [lia |].
  rewrite FloatAxioms.of_uint63_spec. f_equal.
  rewrite Uint63.of_Z_spec. apply Z.mod_small.
  change wB with 9223372036854775808. lia.
Qed.

(** [fudge] is the binary64 product of the size, rounded to binary64, and
    the factor, truncated to [qint64]. *)
Lemma fudge_spec (z : Z) (f : float) :
  0 <= z <= qint64_max ->
  fudge z f
  = truncate_spec (SF64mul (binary_normalize prec emax z 0 false) (Prim2SF f)).
Proof.
  intros Hz. unfold fudge.
  rewrite qreal_to_qint64_spec, FloatAxioms.mul_spec, qint64_to_qreal_spec by assumption.
  reflexivity.
Qed.

(** C5, as the specification states it, fails: the returned value is not
    exactly the base size times the factor. With 16 GiB of RAM and the
    binary64 factor nearest to 1.1, which is 4953959590107546 / 2 ^ 52, the
    product is not a whole number and FullSwap returns 18897856102, the
    whole number below it. *)
Lemma swapSuggestion_FullSwap_truncates :
  let env := memoryOnly (GiB 16) (of_uint63 11 / of_uint63 10)%float in
  Prim2SF (overestimationFactor env) = S754_finite false 4953959590107546 (-52)
  /\ swapSuggestion env 0 Config.FullSwap = 18897856102
  /\ 18897856102 * 2 ^ 52 < GiB 16 * 4953959590107546 < 18897856103 * 2 ^ 52.
Proof. vm_compute. repeat split; solve [reflexivity | discriminate]. Qed.

(** C5, amended. With FullSwap, for every RAM size (a non-negative
    [qint64]), available space and overestimation factor, the returned value
    is the base size of the RAM tier ([2 * r] up to 4 GiB, 8 GiB up to
    8 GiB, [r] above) rounded to binary64, multiplied by the factor in
    binary64 and truncated toward zero to [qint64]. Neither the 8 GiB
    ceiling nor the cap at a tenth of the available space is applied, and
    the available space has no influence at all. *)
Theorem swapSuggestion_FullSwap_uncapped (env : Environment)
    (availableSpaceB availableSpaceB' : Z) :
  0 <= fst (getTotalMemoryB env) <= qint64_max ->
  let r := fst (getTotalMemoryB env) in
  let base := if r <=? GiB 4 then 2 * r else if r <=? GiB 8 then GiB 8 else r in
  swapSuggestion env availableSpaceB Config.FullSwap
  = truncate_spec (SF64mul (binary_normalize prec emax base 0 false)
                           (Prim2SF (snd (getTotalMemoryB env))))
  /\ swapSuggestion env availableSpaceB Config.FullSwap
     = swapSuggestion env availableSpaceB' Config.FullSwap.
Proof.
  intros Hram. cbv zeta.
  destruct GiB_values as [E4 E8].
  assert (Hbase : rampUp (fst (getTotalMemoryB env))
                  = if fst (getTotalMemoryB env) <=? GiB 4
                    then 2 * fst (getTotalMemoryB env)
                    else if fst (getTotalMemoryB env) <=? GiB 8 then GiB 8
                    else fst (getTotalMemoryB env)).
  { destruct (Z.leb_spec (fst (getTotalMemoryB env)) (GiB 4)) as [H4 | H4].
    - apply rampUp_low. lia.
    - unfold rampUp.
      destruct (Z.leb_spec (fst (getTotalMemoryB env)) (GiB 4)); [lia | reflexivity]. }
  assert (Hrange : 0 <= rampUp (fst (getTotalMemoryB env)) <= qint64_max).
  { rewrite Hbase. unfold qint64_max in *.
    destruct (Z.leb_spec (fst (getTotalMemoryB env)) (GiB 4));
      [| destruct (Z.leb_spec (fst (getTotalMemoryB env)) (GiB 8))]; lia. }
  assert (Hsteps : forall a,
            swapSuggestion env a Config.FullSwap
            = fudge (rampUp (fst (getTotalMemoryB env))) (snd (getTotalMemoryB env))).
  { intros a. rewrite swapSuggestion_steps by (right; reflexivity).
    rewrite availableRamB_id by assumption. reflexivity. }
  split.
  - rewrite Hsteps, fudge_spec by assumption. rewrite Hbase. reflexivity.
  - rewrite !Hsteps. reflexivity.
Qed.

(** C5, amended, at 16 GiB of RAM and the factor 1.1. *)
Lemma swapSuggestion_FullSwap_uncapped_witness :
  let env := memoryOnly (GiB 16) (of_uint63 11 / of_uint63 10)%float in
  let r := fst (getTotalMemoryB env) in
  let base := if r <=? GiB 4 then 2 * r else if r <=? GiB 8 then GiB 8 else r in
  swapSuggestion env (GiB 1) Config.FullSwap
  = truncate_spec (SF64mul (binary_normalize prec emax base 0 false)
                           (Prim2SF (snd (getTotalMemoryB env))))
  /\ swapSuggestion env (GiB 1) Config.FullSwap
     = swapSuggestion env (GiB 1024) Config.FullSwap.
Proof.
  apply (swapSuggestion_FullSwap_uncapped
           (memoryOnly (GiB 16) (of_uint63 11 / of_uint63 10)%float)
           (GiB 1) (GiB 1024)).
  vm_compute. split; discriminate.
Defined.

(** The value [swapSuggestion_logged] returns is the one of [swapSuggestion];
    its stream is the one passed in with, for SmallSwap and FullSwap, one
    line added. *)
Lemma swapSuggestion_logged_run (env : Environment) (availableSpaceB : Z)
    (swap : Config.SwapChoice) (debug : list DebugMessage) :
  swapSuggestion_logged env availableSpaceB swap debug
  = (swapSuggestion env availableSpaceB swap,
     debug ++ match swap with
              | Config.NoSwap => []
              | Config.SmallSwap | Config.FullSwap =>
                  [SuggestedSwapSize
                     (qint64_to_qreal (swapSuggestion env availableSpaceB swap)
                      / of_uint63 1024 / of_uint63 1024 / of_uint63 1024)%float]
              end).
Proof.
  destruct swap; [| reflexivity | reflexivity].
  unfold swapSuggestion_logged, swapSuggestion. cbn [Config.SwapChoice_eqb negb andb].
  rewrite app_nil_r. reflexivity.
Qed.

(** C6, as the specification states it, fails: the computation writes to the
    debug stream. With 16 GiB of RAM, 20 GiB available and SmallSwap the
    stream, empty before, holds the line for 2 GiB after. *)
Lemma swapSuggestion_writes_debug_line :
  swapSuggestion_logged (memoryOnly (GiB 16) one) (GiB 20) Config.SmallSwap []
  = (GiB 2, [SuggestedSwapSize two])
  /\ snd (swapSuggestion_logged (memoryOnly (GiB 16) one) (GiB 20) Config.SmallSwap [])
     <> [].
Proof. split; [vm_compute; reflexivity | vm_compute; discriminate]. Qed.

(** C6, amended. The value returned is determined by the available space,
    the swap choice and the two memory figures read from the System
    singleton: two evaluations that agree on these, in whatever environments
    and with whatever debug streams, return equal values. The computation
    is not free of output: it leaves the debug stream as it was and, for
    SmallSwap and FullSwap, adds one line to it, the returned size in GiB;
    for any other choice it returns before writing. Both runs add the same
    line. *)
Theorem swapSuggestion_value_and_output (env1 env2 : Environment)
    (availableSpaceB : Z) (swap : Config.SwapChoice)
    (debug1 debug2 : list DebugMessage) :
  fst (getTotalMemoryB env1) = fst (getTotalMemoryB env2) ->
  snd (getTotalMemoryB env1) = snd (getTotalMemoryB env2) ->
  let run1 := swapSuggestion_logged env1 availableSpaceB swap debug1 in
  let run2 := swapSuggestion_logged env2 availableSpaceB swap debug2 in
  let line :=
    SuggestedSwapSize
      (qint64_to_qreal (fst run1) / of_uint63 1024 / of_uint63 1024 / of_uint63 1024)%float in
  let written :=
    match swap with
    | Config.NoSwap => []
    | Config.SmallSwap | Config.FullSwap => [line]
    end in
  fst run1 = fst run2
  /\ snd run1 = debug1 ++ written
  /\ snd run2 = debug2 ++ written.
Proof.
  intros Hram Hfactor. cbv zeta.
  rewrite !swapSuggestion_logged_run. cbn [fst snd].
  assert (Hvalue : swapSuggestion env1 availableSpaceB swap
                   = swapSuggestion env2 availableSpaceB swap).
  { unfold swapSuggestion. rewrite Hram, Hfactor. reflexivity. }
  rewrite <- Hvalue. repeat split.
Qed.

(** C6, amended, on two environments that differ in firmware and in global
    storage, and two different debug streams. *)
Lemma swapSuggestion_value_and_output_witness :
  let env1 :=
    {| getTotalMemoryB := (GiB 16, one); isEfiSystem := true;
       globalStorage := {[ "swapPartitionName" := "swap0" ]} |} in
  let env2 := memoryOnly (GiB 16) one in
  let debug1 := [SuggestedSwapSize one] in
  let debug2 := [] in
  let run1 := swapSuggestion_logged env1 (GiB 20) Config.SmallSwap debug1 in
  let run2 := swapSuggestion_logged env2 (GiB 20) Config.SmallSwap debug2 in
  let line :=
    SuggestedSwapSize
      (qint64_to_qreal (fst run1) / of_uint63 1024 / of_uint63 1024 / of_uint63 1024)%float in
  fst run1 = fst run2
  /\ snd run1 = debug1 ++ [line]
  /\ snd run2 = debug2 ++ [line].
Proof.
  apply (swapSuggestion_value_and_output
           {| getTotalMemoryB := (GiB 16, one); isEfiSystem := true;
              globalStorage := {[ "swapPartitionName" := "swap0" ]} |}
           (memoryOnly (GiB 16) one) (GiB 20) Config.SmallSwap
           [SuggestedSwapSize one] []); reflexivity.
Defined.

(** ** doReplacePartition *)

(** A descriptor that carries the Extended flag and is Unallocated under an
    Extended parent: the Unallocated test comes second in the source and
    decides, so the role is Logical. *)
Lemma replacementRoles_extended_not_primary :
  PartitionRole.has (roles extendedFreeSpace) PartitionRole.Extended = true
  /\ replacementRoles extendedFreeSpace = PartitionRole.Logical
  /\ replacementRoles extendedFreeSpace <> PartitionRole.Primary.
Proof. repeat split. discriminate. Qed.

(** C7. The replacement role, by the first of the claim's clauses that
    applies: Logical if the descriptor is Unallocated and its parent carries
    the Extended role; Primary if it is Unallocated with no Extended parent;
    Primary if (not Unallocated) it carries the Extended role itself; and
    its current role set in every other case. *)
Theorem replacementRoles_cases (partition : Partition) :
  let unallocated := PartitionRole.has (roles partition) PartitionRole.Unallocated in
  let extended := PartitionRole.has (roles partition) PartitionRole.Extended in
  (unallocated = true -> parentIsExtended partition = true ->
   replacementRoles partition = PartitionRole.Logical)
  /\ (unallocated = true -> parentIsExtended partition = false ->
      replacementRoles partition = PartitionRole.Primary)
  /\ (unallocated = false -> extended = true ->
      replacementRoles partition = PartitionRole.Primary)
  /\ (unallocated = false -> extended = false ->
      replacementRoles partition = roles partition).
Proof.
  unfold replacementRoles, parentIsExtended. cbv zeta.
  destruct (PartitionRole.has (roles partition) PartitionRole.Unallocated);
    destruct (PartitionRole.has (roles partition) PartitionRole.Extended);
    destruct (parent partition) as [[| parentRoles] |];
    try destruct (PartitionRole.has parentRoles PartitionRole.Extended);
    repeat split; intros; solve [reflexivity | discriminate].
Qed.

(** The calls of one run of [doReplacePartition], whatever the queue held. *)
Lemma doReplacePartition_queue (dev : Device) (partition : Partition)
    (o : Choices.ReplacePartitionOptions) (core : PartitionCoreModule) :
  exec (doReplacePartition dev partition o) core
  = queue core
    ++ (if PartitionRole.has (roles partition) PartitionRole.Unallocated
        then [] else [DeletePartition dev partition])
    ++ [LayoutApply dev (firstSector partition) (lastSector partition)
          (Choices.replace_luksPassphrase o);
        DumpQueue].
Proof.
  unfold exec, doReplacePartition, bind, call, when, ret.
  destruct (PartitionRole.has (roles partition) PartitionRole.Unallocated);
    cbn [negb fst snd queue]; rewrite <- ?app_assoc; reflexivity.
Qed.

(** C8. The range handed to the layout step is the first and last sector of
    the partition as passed in. A delete call is queued exactly when the
    partition is not Unallocated, and then it precedes the layout call; a
    free-space selection queues no delete. *)
Theorem doReplacePartition_calls (dev : Device) (partition : Partition)
    (o : Choices.ReplacePartitionOptions) :
  let calls := exec (doReplacePartition dev partition o) emptyCore in
  let unallocated := PartitionRole.has (roles partition) PartitionRole.Unallocated in
  layoutRanges calls = [(firstSector partition, lastSector partition)]
  /\ existsb isDelete calls = negb unallocated
  /\ calls
     = (if unallocated then [] else [DeletePartition dev partition])
       ++ [LayoutApply dev (firstSector partition) (lastSector partition)
             (Choices.replace_luksPassphrase o);
           DumpQueue].
Proof.
  cbv zeta. rewrite doReplacePartition_queue. cbn [emptyCore queue app].
  destruct (PartitionRole.has (roles partition) PartitionRole.Unallocated);
    repeat split; reflexivity.
Qed.

(** ** doAutopartition *)

Section AutopartitionProperties.
Context {helpers : Helpers}.
Variables (env : Environment) (dev : Device) (o : Choices.AutoPartitionOptions).

(** The run of [doAutopartition] appends exactly these calls. *)
Lemma doAutopartition_queue (core : PartitionCoreModule) :
  exec (doAutopartition env dev o) core = queue core ++ autopartitionCalls env dev o.
Proof.
  unfold exec, doAutopartition, autopartitionCalls, swapPartition, swapPartitionFor,
    efiPartition, lastSectorForRoot, shouldCreateSwap, requiredSpaceB,
    suggestedSwapSizeB, availableSpaceB, mayCreateSwap, firstFreeSector,
    efiLastSector, efiSectorCount, uefisys_part_sizeB, leadingSectors,
    partType, layoutType.
  unfold bind, call, when, ret.
  destruct (isEfiSystem env);
    destruct (Config.SwapChoice_eqb (Choices.swap o) Config.SmallSwap
              || Config.SwapChoice_eqb (Choices.swap o) Config.FullSwap);
    cbn [andb fst snd queue];
    repeat match goal with
           | |- context [if (?a >? ?b) then _ else _] => destruct (a >? b)
           end;
    cbn [fst snd queue];
    destruct (globalStorage env !! "efiSystemPartitionName");
    destruct (globalStorage env !! "swapPartitionName");
    destruct (isEmpty (Choices.auto_luksPassphrase o));
    cbn [fst snd queue]; rewrite <- ?app_assoc; cbn [app]; reflexivity.
Qed.

Lemma efiPartition_fields :
  roles (efiPartition env dev o) = PartitionRole.Primary
  /\ fsType (efiPartition env dev o) = FileSystem.Fat32
  /\ firstSector (efiPartition env dev o) = leadingSectors env dev
  /\ lastSector (efiPartition env dev o) = efiLastSector env dev
  /\ format (efiPartition env dev o) = true.
Proof.
  unfold efiPartition. cbv zeta.
  destruct (globalStorage env !! "efiSystemPartitionName"); repeat split; reflexivity.
Qed.

Lemma swapPartitionFor_fields (passphrase : string) :
  roles (swapPartitionFor env dev o passphrase) = PartitionRole.Primary
  /\ fsType (swapPartitionFor env dev o passphrase) = FileSystem.LinuxSwap
  /\ firstSector (swapPartitionFor env dev o passphrase)
     = (lastSectorForRoot env dev o + 1)%q64
  /\ lastSector (swapPartitionFor env dev o passphrase) = (totalLogical dev - 1)%q64
  /\ format (swapPartitionFor env dev o passphrase) = true.
Proof.
  unfold swapPartitionFor. cbv zeta.
  destruct (globalStorage env !! "swapPartitionName"), (isEmpty passphrase);
    repeat split; reflexivity.
Qed.

Lemma createdPartitions_autopartitionCalls :
  createdPartitions (autopartitionCalls env dev o)
  = (if isEfiSystem env then [efiPartition env dev o] else [])
    ++ (if shouldCreateSwap env dev o then [swapPartition env dev o] else []).
Proof.
  unfold autopartitionCalls.
  destruct (isEfiSystem env), (shouldCreateSwap env dev o); reflexivity.
Qed.

Lemma layoutRanges_autopartitionCalls :
  layoutRanges (autopartitionCalls env dev o)
  = [(firstFreeSector env dev, lastSectorForRoot env dev o)].
Proof.
  unfold autopartitionCalls.
  destruct (isEfiSystem env), (shouldCreateSwap env dev o); reflexivity.
Qed.

Lemma swapPartitions_autopartitionCalls :
  swapPartitions (autopartitionCalls env dev o)
  = if shouldCreateSwap env dev o then [swapPartition env dev o] else [].
Proof.
  unfold swapPartitions. rewrite createdPartitions_autopartitionCalls.
  destruct efiPartition_fields as (_ & Hefi & _).
  destruct (swapPartitionFor_fields (Choices.auto_luksPassphrase o)) as (_ & Hswap & _).
  fold (swapPartition env dev o) in Hswap.
  destruct (isEfiSystem env), (shouldCreateSwap env dev o);
    cbn [app]; rewrite ?filter_cons, ?filter_nil; unfold isSwap;
    rewrite ?Hefi, ?Hswap; reflexivity.
Qed.

Lemma includesSwap_autopartitionCalls :
  includesSwap (autopartitionCalls env dev o) = shouldCreateSwap env dev o.
Proof.
  unfold includesSwap. rewrite createdPartitions_autopartitionCalls.
  destruct efiPartition_fields as (_ & Hefi & _).
  destruct (swapPartitionFor_fields (Choices.auto_luksPassphrase o)) as (_ & Hswap & _).
  fold (swapPartition env dev o) in Hswap.
  destruct (isEfiSystem env), (shouldCreateSwap env dev o);
    cbn [app existsb]; unfold isSwap; rewrite ?Hefi, ?Hswap; reflexivity.
Qed.

Lemma mayCreateSwap_true : isSwapChoice (Choices.swap o) -> mayCreateSwap o = true.
Proof. unfold mayCreateSwap. intros [-> | ->]; reflexivity. Qed.

Lemma plan_is_autopartitionCalls :
  exec (doAutopartition env dev o) emptyCore = autopartitionCalls env dev o.
Proof. rewrite doAutopartition_queue. reflexivity. Qed.

End AutopartitionProperties.

(** C1. With a swap choice of SmallSwap or FullSwap, the plan of
    [doAutopartition] holds a swap partition if and only if
    [availableSpaceBytes > requiredSpaceBytes], where the first is
    [(totalLogical - firstFreeSector) * logicalSize] and the second is
    [requiredSpaceB + 600 MiB + suggestedSwapBytes], both in the source's
    [qint64] arithmetic; when the two are equal there is no swap partition. *)
Theorem swap_iff_space_exceeds_required {helpers : Helpers} (env : Environment)
    (dev : Device) (o : Choices.AutoPartitionOptions) :
  isSwapChoice (Choices.swap o) ->
  let calls := exec (doAutopartition env dev o) emptyCore in
  let availableSpaceBytes :=
    ((totalLogical dev - firstFreeSector env dev) * logicalSize dev)%q64 in
  let suggestedSwapBytes := swapSuggestion env availableSpaceBytes (Choices.swap o) in
  let requiredSpaceBytes := (Choices.requiredSpaceB o + MiB 600 + suggestedSwapBytes)%q64 in
  (includesSwap calls = true <-> availableSpaceBytes > requiredSpaceBytes)
  /\ (availableSpaceBytes = requiredSpaceBytes -> includesSwap calls = false).
Proof.
  intros Hswap. cbv zeta.
  rewrite plan_is_autopartitionCalls, includesSwap_autopartitionCalls.
  unfold shouldCreateSwap. rewrite (mayCreateSwap_true o Hswap). cbn [andb].
  fold (availableSpaceB env dev). fold (suggestedSwapSizeB env dev o).
  fold (requiredSpaceB env dev o).
  destruct (Z.gtb_spec (availableSpaceB env dev) (requiredSpaceB env dev o)) as [Hgt | Hle].
  - split; [split; [lia | reflexivity] | lia].
  - split; [split; [discriminate | lia] | reflexivity].
Qed.

(** The plan of that scenario: ESP on sectors 4096..618495, root on
    618496..37810584, swap on 37810585..41943039. *)
Example scenario_plan_ranges :
  sectorRanges (exec (doAutopartition (helpers := exampleHelpers)
                        efiMachine disk20GiB smallSwapOptions) emptyCore)
  = [(4096, 618495); (618496, 37810584); (37810585, 41943039)].
Proof. vm_compute. reflexivity. Qed.

(** Where nothing overflows, the two sides of the comparison are the
    mathematical ones. *)
Lemma space_comparison_exact {helpers : Helpers} (env : Environment)
    (dev : Device) (o : Choices.AutoPartitionOptions) :
  qint64_range (totalLogical dev - firstFreeSector env dev) ->
  qint64_range ((totalLogical dev - firstFreeSector env dev) * logicalSize dev) ->
  qint64_range (Choices.requiredSpaceB o + MiB 600) ->
  qint64_range (Choices.requiredSpaceB o + MiB 600 + suggestedSwapSizeB env dev o) ->
  availableSpaceB env dev
  = (totalLogical dev - firstFreeSector env dev) * logicalSize dev
  /\ requiredSpaceB env dev o
     = Choices.requiredSpaceB o + MiB 600 + suggestedSwapSizeB env dev o.
Proof.
  intros H1 H2 H3 H4. unfold availableSpaceB, requiredSpaceB. split.
  - rewrite (sub64_id _ _ H1). apply mul64_id, H2.
  - rewrite (add64_id _ _ H3). apply add64_id, H4.
Qed.

(** C1 on the scenario. *)
Lemma swap_iff_space_exceeds_required_witness :
  let calls := exec (doAutopartition (helpers := exampleHelpers)
                       efiMachine disk20GiB smallSwapOptions) emptyCore in
  let availableSpaceBytes :=
    ((totalLogical disk20GiB - firstFreeSector (helpers := exampleHelpers) efiMachine disk20GiB)
     * logicalSize disk20GiB)%q64 in
  let suggestedSwapBytes :=
    swapSuggestion efiMachine availableSpaceBytes (Choices.swap smallSwapOptions) in
  let requiredSpaceBytes :=
    (Choices.requiredSpaceB smallSwapOptions + MiB 600 + suggestedSwapBytes)%q64 in
  (includesSwap calls = true <-> availableSpaceBytes > requiredSpaceBytes)
  /\ (availableSpaceBytes = requiredSpaceBytes -> includesSwap calls = false).
Proof.
  apply (swap_iff_space_exceeds_required (helpers := exampleHelpers)
           efiMachine disk20GiB smallSwapOptions).
  left; reflexivity.
Defined.

(** C9. In every plan the root range starts at the cursor
    [firstFreeSector] (the leading reserved sectors, and past the ESP on
    EFI). It ends at [totalLogical - 1] when no swap partition is created,
    and at [totalLogical - 1 - (suggestedSwapBytes / logicalSize + 1)] when
    one is; the swap partition then runs from the sector after the root
    range's last one through [totalLogical - 1]. All in the source's
    [qint64] arithmetic. *)
Theorem root_and_swap_ranges {helpers : Helpers} (env : Environment)
    (dev : Device) (o : Choices.AutoPartitionOptions) :
  let calls := exec (doAutopartition env dev o) emptyCore in
  let cursor :=
    if isEfiSystem env
    then (leadingSectors env dev + efiSectorCount env dev - 1 + 1)%q64
    else leadingSectors env dev in
  let suggestedSwapBytes := swapSuggestion env (availableSpaceB env dev) (Choices.swap o) in
  let rootLast :=
    if includesSwap calls
    then (totalLogical dev - 1 - (suggestedSwapBytes / logicalSize dev + 1))%q64
    else (totalLogical dev - 1)%q64 in
  layoutRanges calls = [(cursor, rootLast)]
  /\ map (fun p => (firstSector p, lastSector p)) (swapPartitions calls)
     = if includesSwap calls
       then [((rootLast + 1)%q64, (totalLogical dev - 1)%q64)]
       else [].
Proof.
  cbv zeta.
  rewrite plan_is_autopartitionCalls, includesSwap_autopartitionCalls,
    layoutRanges_autopartitionCalls, swapPartitions_autopartitionCalls.
  destruct (swapPartitionFor_fields env dev o (Choices.auto_luksPassphrase o))
    as (_ & _ & Hfirst & Hlast & _).
  fold (swapPartition env dev o) in Hfirst, Hlast.
  unfold lastSectorForRoot in *. fold (suggestedSwapSizeB env dev o).
  unfold firstFreeSector, efiLastSector.
  destruct (shouldCreateSwap env dev o); cbn [map]; rewrite ?Hfirst, ?Hlast;
    split; reflexivity.
Qed.

Lemma swapPartitionFor_passphrase {helpers : Helpers} (env : Environment)
    (dev : Device) (o : Choices.AutoPartitionOptions) (passphrase : string) :
  swapPartitionFor env dev o passphrase
  = setPassphrase (if isEmpty passphrase then None else Some passphrase)
      (swapPartitionFor env dev o "").
Proof.
  unfold swapPartitionFor. cbv zeta.
  destruct (globalStorage env !! "swapPartitionName"), (isEmpty passphrase); reflexivity.
Qed.

(** C10. Every partition [doAutopartition] creates directly has the role
    Primary, so neither Logical nor Extended. On EFI the first of them is the
    ESP, a Primary FAT32 partition. The swap partition of a run with a
    passphrase is the swap partition of the same run without one, with the
    passphrase filled in: same role, sectors, labels and format flag. *)
Theorem created_partitions_primary {helpers : Helpers} (env : Environment)
    (dev : Device) (o : Choices.AutoPartitionOptions) :
  let plan o := exec (doAutopartition env dev o) emptyCore in
  Forall (fun p => roles p = PartitionRole.Primary
                   /\ PartitionRole.has (roles p) PartitionRole.Logical = false
                   /\ PartitionRole.has (roles p) PartitionRole.Extended = false)
         (createdPartitions (plan o))
  /\ (if isEfiSystem env
      then exists esp rest,
             createdPartitions (plan o) = esp :: rest
             /\ roles esp = PartitionRole.Primary
             /\ fsType esp = FileSystem.Fat32
      else Forall (fun p => isSwap p = true) (createdPartitions (plan o)))
  /\ (forall passphrase : string,
        swapPartitions (plan (withPassphrase o passphrase))
        = map (setPassphrase (if isEmpty passphrase then None else Some passphrase))
              (swapPartitions (plan (withPassphrase o "")))).
Proof.
  cbv zeta.
  destruct (efiPartition_fields env dev o) as (Hefi_role & Hefi_fs & _).
  destruct (swapPartitionFor_fields env dev o (Choices.auto_luksPassphrase o))
    as (Hswap_role & Hswap_fs & _).
  fold (swapPartition env dev o) in Hswap_role, Hswap_fs.
  split; [| split].
  - rewrite plan_is_autopartitionCalls, createdPartitions_autopartitionCalls.
    apply Forall_app. split.
    + destruct (isEfiSystem env); constructor; [| constructor].
      rewrite Hefi_role. repeat split.
    + destruct (shouldCreateSwap env dev o); constructor; [| constructor].
      rewrite Hswap_role. repeat split.
  - rewrite plan_is_autopartitionCalls, createdPartitions_autopartitionCalls.
    destruct (isEfiSystem env).
    + eexists _, _. split; [reflexivity |]. split; assumption.
    + destruct (shouldCreateSwap env dev o); constructor; [| constructor].
      unfold isSwap. rewrite Hswap_fs. reflexivity.
  - intros passphrase.
    rewrite !plan_is_autopartitionCalls, !swapPartitions_autopartitionCalls.
    change (shouldCreateSwap env dev (withPassphrase o passphrase))
      with (shouldCreateSwap env dev (withPassphrase o "")).
    destruct (shouldCreateSwap env dev (withPassphrase o "")); [| reflexivity].
    cbn [map]. f_equal. unfold swapPartition.
    cbn [withPassphrase Choices.auto_luksPassphrase].
    rewrite (swapPartitionFor_passphrase env dev (withPassphrase o passphrase) passphrase).
    reflexivity.
Qed.

(** The ranges of a plan, in the order the calls are made: the ESP on EFI,
    the root range, the swap partition when created. *)
Lemma sectorRanges_autopartitionCalls {helpers : Helpers} (env : Environment)
    (dev : Device) (o : Choices.AutoPartitionOptions) :
  sectorRanges (autopartitionCalls env dev o)
  = (if isEfiSystem env then [(leadingSectors env dev, efiLastSector env dev)] else [])
    ++ [(firstFreeSector env dev, lastSectorForRoot env dev o)]
    ++ (if shouldCreateSwap env dev o
        then [((lastSectorForRoot env dev o + 1)%q64, (totalLogical dev - 1)%q64)]
        else []).
Proof.
  destruct (efiPartition_fields env dev o) as (_ & _ & Hefi_first & Hefi_last & _).
  destruct (swapPartitionFor_fields env dev o (Choices.auto_luksPassphrase o))
    as (_ & _ & Hswap_first & Hswap_last & _).
  fold (swapPartition env dev o) in Hswap_first, Hswap_last.
  unfold autopartitionCalls, sectorRanges.
  destruct (isEfiSystem env), (shouldCreateSwap env dev o);
    cbn [app omap list_omap sectorRange];
    rewrite ?Hefi_first, ?Hefi_last, ?Hswap_first, ?Hswap_last; reflexivity.
Qed.

(** C2, as the specification states it, fails: on a disk of 1000 sectors the
    root range handed to the layout step is 2048..999, which is not inside
    the device. The planner never compares the cursor with the device size. *)
Lemma root_range_outside_tiny_disk :
  sectorRanges (exec (doAutopartition (helpers := exampleHelpers)
                        biosMachine tinyDisk noSwapOptions) emptyCore)
  = [(2048, 999)]
  /\ ~ within (totalLogical tinyDisk) (2048, 999).
Proof.
  split; [vm_compute; reflexivity |].
  unfold within. cbn [fst snd]. lia.
Qed.

Section AutopartitionFits.
Context {helpers : Helpers}.
Variables (env : Environment) (dev : Device) (o : Choices.AutoPartitionOptions).

Let lead := leadingSectors env dev.
Let esp := if isEfiSystem env then efiSectorCount env dev else 0.
Let swapSectors :=
  if shouldCreateSwap env dev o
  then suggestedSwapSizeB env dev o ÷ logicalSize dev + 1 else 0.

Hypothesis total_qint64 : 0 <= totalLogical dev <= qint64_max.
Hypothesis sector_size_positive : 0 < logicalSize dev.
Hypothesis lead_nonnegative : 0 <= leadingSectors env dev.
Hypothesis esp_asserted : efiSectorCount_asserted env dev.
Hypothesis swap_nonnegative :
  shouldCreateSwap env dev o = true -> 0 <= suggestedSwapSizeB env dev o.
Hypothesis room_for_root : lead + esp + swapSectors <= totalLogical dev - 1.

Local Ltac in_range :=
  unfold qint64_range, qint64_min, qint64_max in *; lia.

Lemma swap_quotient_nonnegative :
  shouldCreateSwap env dev o = true ->
  0 <= suggestedSwapSizeB env dev o ÷ logicalSize dev.
Proof using All.
  intros Hswap. apply Z.quot_pos; [auto | assumption].
Qed.

Lemma swapSectors_bounds : 0 <= swapSectors.
Proof using All.
  pose proof swap_quotient_nonnegative as Hq.
  subst swapSectors.
  destruct (shouldCreateSwap env dev o); [specialize (Hq eq_refl) |]; lia.
Qed.

Lemma esp_nonnegative : 0 <= esp.
Proof using All.
  subst esp. unfold efiSectorCount_asserted in esp_asserted.
  destruct (isEfiSystem env); [specialize (esp_asserted eq_refl) |]; lia.
Qed.

Lemma firstFreeSector_fits : firstFreeSector env dev = lead + esp.
Proof using All.
  pose proof swapSectors_bounds. pose proof esp_nonnegative.
  subst lead esp. unfold firstFreeSector, efiLastSector in *.
  destruct (isEfiSystem env); [| lia].
  rewrite (add64_id (leadingSectors env dev) (efiSectorCount env dev)) by in_range.
  rewrite sub64_id by in_range. rewrite add64_id by in_range. lia.
Qed.

Lemma efiLastSector_fits :
  isEfiSystem env = true -> efiLastSector env dev = lead + esp - 1.
Proof using All.
  pose proof swapSectors_bounds. pose proof esp_nonnegative.
  subst lead esp. unfold efiLastSector in *. intros Hefi. rewrite Hefi in *.
  rewrite (add64_id (leadingSectors env dev) (efiSectorCount env dev)) by in_range.
  rewrite sub64_id by in_range. reflexivity.
Qed.

Lemma lastSectorForRoot_fits :
  lastSectorForRoot env dev o = totalLogical dev - 1 - swapSectors.
Proof using All.
  pose proof swapSectors_bounds. pose proof esp_nonnegative.
  subst lead esp swapSectors. unfold lastSectorForRoot in *.
  destruct (shouldCreateSwap env dev o).
  - rewrite (sub64_id (totalLogical dev) 1) by in_range.
    rewrite div64_id by in_range. rewrite add64_id by in_range.
    rewrite sub64_id by in_range. reflexivity.
  - rewrite sub64_id by in_range. lia.
Qed.

(** Given room for the leading space, the ESP, the swap and one root sector,
    the ranges of the plan lie on the device, are pairwise disjoint and
    strictly increase in their first sector. *)
Lemma ranges_ascend_given_room :
  let ranges := sectorRanges (exec (doAutopartition env dev o) emptyCore) in
  Forall (within (totalLogical dev)) ranges
  /\ ForallOrdPairs disjoint ranges
  /\ ForallOrdPairs (fun r1 r2 => fst r1 < fst r2) ranges.
Proof using All.
  cbv zeta.
  rewrite plan_is_autopartitionCalls, sectorRanges_autopartitionCalls.
  pose proof swapSectors_bounds as Hs. pose proof esp_nonnegative as He.
  pose proof swap_quotient_nonnegative as Hq.
  pose proof firstFreeSector_fits as Hfirst.
  pose proof efiLastSector_fits as Hefi.
  pose proof lastSectorForRoot_fits as Hroot.
  rewrite Hfirst, Hroot.
  assert (Hlast : (totalLogical dev - 1)%q64 = totalLogical dev - 1)
    by (apply sub64_id; in_range).
  assert (Hnext : ((totalLogical dev - 1 - swapSectors)%Z + 1)%q64
                  = totalLogical dev - swapSectors)
    by (rewrite add64_id by in_range; lia).
  rewrite Hlast, Hnext.
  unfold efiSectorCount_asserted in esp_asserted.
  subst lead esp swapSectors. unfold within, disjoint.
  destruct (isEfiSystem env);
    [rewrite (Hefi eq_refl); specialize (esp_asserted eq_refl) |];
    (destruct (shouldCreateSwap env dev o); [specialize (Hq eq_refl) |]);
    cbn [app fst snd];
    (split; [| split]);
    repeat first [apply Forall_cons | apply Forall_nil
                 | apply FOP_cons | apply FOP_nil | split];
    cbn [fst snd]; lia.
Qed.

End AutopartitionFits.


(** ** The scenarios of the specification *)

(** Same disk, BIOS firmware, FullSwap, 32 GiB of RAM: the suggestion is
    32 GiB, more than the disk holds, and the plan has no swap partition. *)
Example scenario_full_swap_omitted :
  let env := memoryOnly (GiB 32) one in
  let o := {| Choices.defaultPartitionTableType := "";
              Choices.defaultFsType := "";
              Choices.efiPartitionMountPoint := "/boot/efi";
              Choices.requiredSpaceB := GiB 8;
              Choices.swap := Config.FullSwap;
              Choices.auto_luksPassphrase := "" |} in
  swapSuggestion env (availableSpaceB (helpers := exampleHelpers) env disk20GiB)
    Config.FullSwap = GiB 32
  /\ exec (doAutopartition (helpers := exampleHelpers) env disk20GiB o) emptyCore
     = [InitLayout FileSystem.Ext4;
        CreatePartitionTable disk20GiB PartitionTable.msdos;
        LayoutApply disk20GiB 2048 41943039 "";
        DumpQueue].
Proof. vm_compute. split; reflexivity. Qed.

(** An Unallocated region on sectors 1000..5000 inside an extended partition:
    the role is Logical, the range is handed on as it is, nothing is
    deleted. *)
Example scenario_replace_free_space :
  let region :=
    {| parent := Some (PartitionParent PartitionRole.Extended);
       roles := PartitionRole.Unallocated;
       fsType := FileSystem.Unknown; fsLabel := "";
       firstSector := 1000; lastSector := 5000;
       luksPassphrase := None; activeFlags := PartitionTable.FlagNone;
       label := None; format := false; mountPoint := "" |} in
  replacementRoles region = PartitionRole.Logical
  /\ exec (doReplacePartition disk20GiB region {| Choices.replace_luksPassphrase := "" |})
          emptyCore
     = [LayoutApply disk20GiB 1000 5000 ""; DumpQueue].
Proof. vm_compute. split; reflexivity. Qed.

(** * Further properties *)

(** ** Plans without swap *)

Lemma shouldCreateSwap_NoSwap {helpers : Helpers} (env : Environment)
    (dev : Device) (o : Choices.AutoPartitionOptions) :
  shouldCreateSwap env dev (withSwap o Config.NoSwap) = false.
Proof. reflexivity. Qed.

(** X1. With a swap choice of NoSwap the plan holds no swap partition, the
    root range runs from the cursor through [totalLogical - 1], and the
    memory figures of the machine have no influence on the plan. *)
Theorem noSwap_plan {helpers : Helpers} (env : Environment) (dev : Device)
    (o : Choices.AutoPartitionOptions) (memory : Z * float) :
  let o' := withSwap o Config.NoSwap in
  let plan := exec (doAutopartition env dev o') emptyCore in
  includesSwap plan = false
  /\ layoutRanges plan = [(firstFreeSector env dev, (totalLogical dev - 1)%q64)]
  /\ exec (doAutopartition (withMemory env memory) dev o') emptyCore = plan.
Proof.
  cbv zeta. rewrite !plan_is_autopartitionCalls.
  rewrite includesSwap_autopartitionCalls, layoutRanges_autopartitionCalls.
  unfold autopartitionCalls, lastSectorForRoot.
  rewrite !shouldCreateSwap_NoSwap. repeat split.
Qed.

Lemma shouldCreateSwap_insufficient {helpers : Helpers} (env : Environment)
    (dev : Device) (o : Choices.AutoPartitionOptions) :
  availableSpaceB env dev <= requiredSpaceB env dev o ->
  shouldCreateSwap env dev o = false.
Proof.
  intros Hle. unfold shouldCreateSwap.
  destruct (Z.gtb_spec (availableSpaceB env dev) (requiredSpaceB env dev o)); [lia |].
  apply andb_false_r.
Qed.

(** X2. When the available space does not exceed the required space, the
    plan is, call for call, the plan of the same inputs with NoSwap: the
    swap is dropped and nothing else changes. *)
Theorem insufficient_space_gives_noSwap_plan {helpers : Helpers}
    (env : Environment) (dev : Device) (o : Choices.AutoPartitionOptions) :
  availableSpaceB env dev <= requiredSpaceB env dev o ->
  exec (doAutopartition env dev o) emptyCore
  = exec (doAutopartition env dev (withSwap o Config.NoSwap)) emptyCore.
Proof.
  intros Hle. rewrite !plan_is_autopartitionCalls.
  unfold autopartitionCalls, lastSectorForRoot.
  rewrite shouldCreateSwap_NoSwap, (shouldCreateSwap_insufficient env dev o Hle).
  reflexivity.
Qed.

(** X2 on the second scenario: 32 GiB of swap do not fit a 20 GiB disk. *)
Lemma insufficient_space_gives_noSwap_plan_witness :
  exec (doAutopartition (helpers := exampleHelpers)
          (memoryOnly (GiB 32) one) disk20GiB fullSwapOptions) emptyCore
  = exec (doAutopartition (helpers := exampleHelpers)
            (memoryOnly (GiB 32) one) disk20GiB
            (withSwap fullSwapOptions Config.NoSwap)) emptyCore.
Proof.
  apply (insufficient_space_gives_noSwap_plan (helpers := exampleHelpers)
           (memoryOnly (GiB 32) one) disk20GiB fullSwapOptions).
  vm_compute. discriminate.
Defined.

(** ** The shape of a plan *)

(** X3. A plan starts by initialising the layout and creating the partition
    table. The filesystem handed over is never Unknown: it is the one the
    options name when that is recognised, and Ext4 otherwise. The table type
    is never the unknown one: it is the one the options name when that is
    recognised, and otherwise gpt on EFI and msdos on BIOS. *)
Theorem layout_and_table_types {helpers : Helpers} (env : Environment)
    (dev : Device) (o : Choices.AutoPartitionOptions) :
  let named_fs := findFS (Choices.defaultFsType o) in
  let named_table := nameToTableType (Choices.defaultPartitionTableType o) in
  exists fs table rest,
    exec (doAutopartition env dev o) emptyCore
    = InitLayout fs :: CreatePartitionTable dev table :: rest
    /\ fs <> FileSystem.Unknown
    /\ table <> PartitionTable.unknownTableType
    /\ (named_fs <> FileSystem.Unknown -> fs = named_fs)
    /\ (named_fs = FileSystem.Unknown -> fs = FileSystem.Ext4)
    /\ (named_table <> PartitionTable.unknownTableType -> table = named_table)
    /\ (named_table = PartitionTable.unknownTableType ->
        table = if isEfiSystem env then PartitionTable.gpt else PartitionTable.msdos).
Proof.
  cbv zeta. rewrite plan_is_autopartitionCalls. unfold autopartitionCalls.
  eexists _, _, _. split; [reflexivity |].
  unfold layoutType, partType. cbv zeta.
  destruct (findFS (Choices.defaultFsType o));
    destruct (nameToTableType (Choices.defaultPartitionTableType o));
    destruct (isEfiSystem env); cbn;
    repeat split; intros; solve [congruence | discriminate].
Qed.

(** X4. Every plan holds exactly one layout initialisation, one partition
    table creation, one layout request and one queue dump, which is its last
    call; it deletes nothing; and it creates one partition on EFI (the ESP)
    plus one when swap is included, so a plan has four to six calls. *)
Theorem plan_shape {helpers : Helpers} (env : Environment) (dev : Device)
    (o : Choices.AutoPartitionOptions) :
  let plan := exec (doAutopartition env dev o) emptyCore in
  countCalls isInitLayout plan = 1%nat
  /\ countCalls isCreatePartitionTable plan = 1%nat
  /\ countCalls isLayoutApply plan = 1%nat
  /\ countCalls isDumpQueue plan = 1%nat
  /\ countCalls isDelete plan = 0%nat
  /\ countCalls isCreatePartition plan
     = ((if isEfiSystem env then 1 else 0) + (if includesSwap plan then 1 else 0))%nat
  /\ last plan = Some DumpQueue
  /\ (4 <= length plan <= 6)%nat.
Proof.
  cbv zeta. rewrite plan_is_autopartitionCalls, includesSwap_autopartitionCalls.
  unfold autopartitionCalls, countCalls.
  destruct (isEfiSystem env), (shouldCreateSwap env dev o); cbn;
    repeat split; lia.
Qed.

(** ** What a plan reads from the global storage and the device *)

Local Ltac unfold_locals :=
  unfold autopartitionCalls, swapPartition, swapPartitionFor, efiPartition,
    lastSectorForRoot, shouldCreateSwap, requiredSpaceB, suggestedSwapSizeB,
    availableSpaceB, mayCreateSwap, firstFreeSector, efiLastSector,
    efiSectorCount, uefisys_part_sizeB, leadingSectors, partType, layoutType;
  cbn [withStorage withCapacity globalStorage isEfiSystem getTotalMemoryB
       logicalSize totalLogical capacity].

(** The calls of a run depend on the storage through three lookups. *)
Lemma autopartitionCalls_storage_ext {helpers : Helpers} (env : Environment)
    (gs1 gs2 : gmap string string) (dev : Device) (o : Choices.AutoPartitionOptions) :
  gs1 !! "efiSystemPartitionSize" = gs2 !! "efiSystemPartitionSize" ->
  gs1 !! "efiSystemPartitionName" = gs2 !! "efiSystemPartitionName" ->
  gs1 !! "swapPartitionName" = gs2 !! "swapPartitionName" ->
  autopartitionCalls (withStorage env gs1) dev o
  = autopartitionCalls (withStorage env gs2) dev o.
Proof.
  intros Hsize Hname Hswap. unfold_locals.
  rewrite Hsize, Hname, Hswap. reflexivity.
Qed.

Lemma withStorage_same {helpers : Helpers} (env : Environment) (dev : Device)
    (o : Choices.AutoPartitionOptions) :
  autopartitionCalls (withStorage env (globalStorage env)) dev o
  = autopartitionCalls env dev o.
Proof.
  unfold_locals. unfold swapSuggestion.
  cbn [withStorage getTotalMemoryB]. reflexivity.
Qed.

(** X5. Of the global storage a plan reads the keys efiSystemPartitionSize,
    efiSystemPartitionName and swapPartitionName and nothing else: two
    storages that agree on these three give the same plan. *)
Theorem plan_reads_three_keys {helpers : Helpers} (env : Environment)
    (gs1 gs2 : gmap string string) (dev : Device) (o : Choices.AutoPartitionOptions) :
  gs1 !! "efiSystemPartitionSize" = gs2 !! "efiSystemPartitionSize" ->
  gs1 !! "efiSystemPartitionName" = gs2 !! "efiSystemPartitionName" ->
  gs1 !! "swapPartitionName" = gs2 !! "swapPartitionName" ->
  exec (doAutopartition (withStorage env gs1) dev o) emptyCore
  = exec (doAutopartition (withStorage env gs2) dev o) emptyCore.
Proof.
  intros Hsize Hname Hswap. rewrite !plan_is_autopartitionCalls.
  apply autopartitionCalls_storage_ext; assumption.
Qed.

(** X5 with a storage that holds an unrelated key and an empty one. *)
Lemma plan_reads_three_keys_witness :
  exec (doAutopartition (helpers := exampleHelpers)
          (withStorage efiMachine {[ "bootLoader" := "grub" ]})
          disk20GiB smallSwapOptions) emptyCore
  = exec (doAutopartition (helpers := exampleHelpers)
            (withStorage efiMachine ∅) disk20GiB smallSwapOptions) emptyCore.
Proof.
  apply (plan_reads_three_keys (helpers := exampleHelpers) efiMachine
           {[ "bootLoader" := "grub" ]} ∅ disk20GiB smallSwapOptions);
    vm_compute; reflexivity.
Defined.

(** X6. The ESP takes its partition label from efiSystemPartitionName: the
    plan with the key set to a text is the plan with the key removed, with
    that text as the label of the partition created with the ESP flag and
    every other call unchanged; with the key removed the ESP has no label. *)
Theorem esp_label_from_storage {helpers : Helpers} (env : Environment)
    (dev : Device) (o : Choices.AutoPartitionOptions) (text : string) :
  let plan gs := exec (doAutopartition (withStorage env gs) dev o) emptyCore in
  let named := <[ "efiSystemPartitionName" := text ]> (globalStorage env) in
  let unnamed := delete "efiSystemPartitionName" (globalStorage env) in
  plan named = map (relabelEsp text) (plan unnamed)
  /\ Forall (fun p => label p = None) (espPartitions (plan unnamed)).
Proof.
  cbv beta zeta. rewrite !plan_is_autopartitionCalls.
  rewrite (autopartitionCalls_storage_ext env
             (delete "efiSystemPartitionName" (globalStorage env))
             (delete "efiSystemPartitionName"
                (<[ "efiSystemPartitionName" := text ]> (globalStorage env))) dev o)
    by (rewrite ?lookup_delete_eq, ?lookup_delete_ne, ?lookup_insert_ne by done; reflexivity).
  unfold autopartitionCalls.
  set (named := <[ "efiSystemPartitionName" := text ]> (globalStorage env)).
  assert (Hnamed : named !! "efiSystemPartitionName" = Some text)
    by apply lookup_insert_eq.
  assert (Hrest : forall key, key <> "efiSystemPartitionName" ->
            delete "efiSystemPartitionName" named !! key = named !! key)
    by (intros key Hkey; apply lookup_delete_ne; congruence).
  assert (Hgeometry :
    leadingSectors (withStorage env (delete "efiSystemPartitionName" named)) dev
    = leadingSectors (withStorage env named) dev
    /\ efiLastSector (withStorage env (delete "efiSystemPartitionName" named)) dev
       = efiLastSector (withStorage env named) dev
    /\ firstFreeSector (withStorage env (delete "efiSystemPartitionName" named)) dev
       = firstFreeSector (withStorage env named) dev
    /\ shouldCreateSwap (withStorage env (delete "efiSystemPartitionName" named)) dev o
       = shouldCreateSwap (withStorage env named) dev o
    /\ lastSectorForRoot (withStorage env (delete "efiSystemPartitionName" named)) dev o
       = lastSectorForRoot (withStorage env named) dev o
    /\ swapPartition (withStorage env (delete "efiSystemPartitionName" named)) dev o
       = swapPartition (withStorage env named) dev o).
  { unfold_locals. rewrite !Hrest by discriminate. repeat split. }
  destruct Hgeometry as (Hlead & Hefi & Hfirst & Hshould & Hroot & Hswap).
  rewrite Hfirst, Hshould, Hroot, Hswap.
  unfold efiPartition. cbn [withStorage globalStorage isEfiSystem].
  rewrite Hlead, Hefi, Hnamed, lookup_delete_eq.
  destruct (isEfiSystem env), (shouldCreateSwap (withStorage env named) dev o);
    cbn; repeat constructor.
Qed.

(** The sectors of a plan depend on the storage through the ESP size only. *)
Lemma geometry_storage_ext {helpers : Helpers} (env : Environment)
    (gs1 gs2 : gmap string string) (dev : Device) (o : Choices.AutoPartitionOptions) :
  gs1 !! "efiSystemPartitionSize" = gs2 !! "efiSystemPartitionSize" ->
  leadingSectors (withStorage env gs1) dev = leadingSectors (withStorage env gs2) dev
  /\ efiLastSector (withStorage env gs1) dev = efiLastSector (withStorage env gs2) dev
  /\ firstFreeSector (withStorage env gs1) dev = firstFreeSector (withStorage env gs2) dev
  /\ shouldCreateSwap (withStorage env gs1) dev o
     = shouldCreateSwap (withStorage env gs2) dev o
  /\ lastSectorForRoot (withStorage env gs1) dev o
     = lastSectorForRoot (withStorage env gs2) dev o.
Proof.
  intros Hsize. unfold_locals. rewrite Hsize. repeat split.
Qed.

(** X7. The swap partition takes its partition label from swapPartitionName:
    the plan with the key set to a text is the plan with the key removed,
    with that text as the label of the partition created without a flags
    argument and every other call unchanged. With the key removed the swap
    partition has no partition label; its filesystem label is "swap" in both
    cases. *)
Theorem swap_label_from_storage {helpers : Helpers} (env : Environment)
    (dev : Device) (o : Choices.AutoPartitionOptions) (text : string) :
  let plan gs := exec (doAutopartition (withStorage env gs) dev o) emptyCore in
  let named := <[ "swapPartitionName" := text ]> (globalStorage env) in
  let unnamed := delete "swapPartitionName" (globalStorage env) in
  plan named = map (relabelUnflagged text) (plan unnamed)
  /\ Forall (fun p => label p = None /\ fsLabel p = "swap") (swapPartitions (plan unnamed))
  /\ Forall (fun p => label p = Some text /\ fsLabel p = "swap")
            (swapPartitions (plan named)).
Proof.
  cbv beta zeta. rewrite !plan_is_autopartitionCalls.
  rewrite !swapPartitions_autopartitionCalls.
  set (named := <[ "swapPartitionName" := text ]> (globalStorage env)).
  set (unnamed := delete "swapPartitionName" (globalStorage env)).
  assert (Hnamed : named !! "swapPartitionName" = Some text)
    by apply lookup_insert_eq.
  assert (Hunnamed : unnamed !! "swapPartitionName" = None)
    by apply lookup_delete_eq.
  assert (Hrest : forall key, key <> "swapPartitionName" ->
            unnamed !! key = named !! key).
  { intros key Hkey. unfold unnamed, named.
    rewrite lookup_delete_ne, lookup_insert_ne by congruence. reflexivity. }
  destruct (geometry_storage_ext env unnamed named dev o)
    as (Hlead & Hefi & Hfirst & Hshould & Hroot); [apply Hrest; discriminate |].
  assert (Hesp : efiPartition (withStorage env unnamed) dev o
                 = efiPartition (withStorage env named) dev o).
  { unfold efiPartition. cbn [withStorage globalStorage].
    rewrite Hlead, Hefi, Hrest by discriminate. reflexivity. }
  unfold autopartitionCalls.
  rewrite Hfirst, Hshould, Hroot, Hesp.
  unfold swapPartition, swapPartitionFor. cbn [withStorage globalStorage isEfiSystem].
  rewrite Hroot, Hnamed, Hunnamed.
  destruct (isEfiSystem env), (shouldCreateSwap (withStorage env named) dev o),
    (isEmpty (Choices.auto_luksPassphrase o));
    cbn; repeat constructor.
Qed.

(** X8. The capacity of the device is read only to resolve
    efiSystemPartitionSize: when the storage holds no such key, devices that
    differ in their capacity alone get the same sectors and the same
    partitions. *)
Theorem capacity_only_for_esp_size {helpers : Helpers} (env : Environment)
    (dev : Device) (o : Choices.AutoPartitionOptions) (bytes : Z) :
  globalStorage env !! "efiSystemPartitionSize" = None ->
  let plan dev := exec (doAutopartition env dev o) emptyCore in
  sectorRanges (plan (withCapacity dev bytes)) = sectorRanges (plan dev)
  /\ createdPartitions (plan (withCapacity dev bytes)) = createdPartitions (plan dev).
Proof.
  intros Hsize. cbv beta zeta. rewrite !plan_is_autopartitionCalls.
  rewrite !sectorRanges_autopartitionCalls, !createdPartitions_autopartitionCalls.
  unfold_locals. rewrite Hsize. split; reflexivity.
Qed.

(** X8 on the first scenario, with the capacity field set to zero. *)
Lemma capacity_only_for_esp_size_witness :
  let plan dev := exec (doAutopartition (helpers := exampleHelpers)
                          efiMachine dev smallSwapOptions) emptyCore in
  sectorRanges (plan (withCapacity disk20GiB 0)) = sectorRanges (plan disk20GiB)
  /\ createdPartitions (plan (withCapacity disk20GiB 0))
     = createdPartitions (plan disk20GiB).
Proof.
  apply (capacity_only_for_esp_size (helpers := exampleHelpers)
           efiMachine disk20GiB smallSwapOptions 0).
  vm_compute. reflexivity.
Defined.

(** X9. On BIOS the ESP keys of the storage are not read: setting
    efiSystemPartitionSize and efiSystemPartitionName to any texts leaves
    the plan as it is. *)
Theorem bios_ignores_esp_keys {helpers : Helpers} (env : Environment)
    (dev : Device) (o : Choices.AutoPartitionOptions) (size name : string) :
  isEfiSystem env = false ->
  exec (doAutopartition
          (withStorage env
             (<[ "efiSystemPartitionSize" := size ]>
                (<[ "efiSystemPartitionName" := name ]> (globalStorage env))))
          dev o) emptyCore
  = exec (doAutopartition env dev o) emptyCore.
Proof.
  intros Hbios. rewrite !plan_is_autopartitionCalls.
  rewrite <- (withStorage_same env dev o).
  unfold_locals. rewrite Hbios.
  rewrite !lookup_insert_ne by discriminate. reflexivity.
Qed.

(** X9 on a BIOS machine and the 20 GiB disk. *)
Lemma bios_ignores_esp_keys_witness :
  exec (doAutopartition (helpers := exampleHelpers)
          (withStorage biosMachine
             (<[ "efiSystemPartitionSize" := "50%" ]>
                (<[ "efiSystemPartitionName" := "EFI" ]> (globalStorage biosMachine))))
          disk20GiB smallSwapOptions) emptyCore
  = exec (doAutopartition (helpers := exampleHelpers)
            biosMachine disk20GiB smallSwapOptions) emptyCore.
Proof.
  apply (bios_ignores_esp_keys (helpers := exampleHelpers)
           biosMachine disk20GiB smallSwapOptions "50%" "EFI").
  reflexivity.
Defined.

(** ** The sizes of the ranges *)

Section AutopartitionSizes.
Context {helpers : Helpers}.
Variables (env : Environment) (dev : Device) (o : Choices.AutoPartitionOptions).

Let lead := leadingSectors env dev.
Let esp := if isEfiSystem env then efiSectorCount env dev else 0.
Let swapSectors :=
  if shouldCreateSwap env dev o
  then suggestedSwapSizeB env dev o ÷ logicalSize dev + 1 else 0.

Hypothesis total_qint64 : 0 <= totalLogical dev <= qint64_max.
Hypothesis sector_size_positive : 0 < logicalSize dev.
Hypothesis lead_nonnegative : 0 <= leadingSectors env dev.
Hypothesis esp_asserted : efiSectorCount_asserted env dev.
Hypothesis swap_nonnegative :
  shouldCreateSwap env dev o = true -> 0 <= suggestedSwapSizeB env dev o.
Hypothesis room_for_root : lead + esp + swapSectors <= totalLogical dev - 1.

(** The ranges of a plan that fits, in plain integers. *)
Lemma sectorRanges_fit :
  sectorRanges (exec (doAutopartition env dev o) emptyCore)
  = (if isEfiSystem env then [(lead, lead + esp - 1)] else [])
    ++ [(lead + esp, totalLogical dev - 1 - swapSectors)]
    ++ (if shouldCreateSwap env dev o
        then [(totalLogical dev - swapSectors, totalLogical dev - 1)] else []).
Proof using All.
  rewrite plan_is_autopartitionCalls, sectorRanges_autopartitionCalls.
  pose proof (swapSectors_bounds env dev o total_qint64 sector_size_positive
                lead_nonnegative esp_asserted swap_nonnegative room_for_root) as Hs.
  pose proof (esp_nonnegative env dev o total_qint64 sector_size_positive
                lead_nonnegative esp_asserted swap_nonnegative room_for_root) as He.
  rewrite (firstFreeSector_fits env dev o total_qint64 sector_size_positive
             lead_nonnegative esp_asserted swap_nonnegative room_for_root).
  rewrite (lastSectorForRoot_fits env dev o total_qint64 sector_size_positive
             lead_nonnegative esp_asserted swap_nonnegative room_for_root).
  pose proof (efiLastSector_fits env dev o total_qint64 sector_size_positive
                lead_nonnegative esp_asserted swap_nonnegative room_for_root) as Hefi.
  fold lead esp swapSectors in Hs, He, Hefi |- *.
  assert (Hlast : (totalLogical dev - 1)%q64 = totalLogical dev - 1)
    by (apply sub64_id; unfold qint64_range, qint64_min, qint64_max in *; lia).
  assert (Hnext : ((totalLogical dev - 1 - swapSectors)%Z + 1)%q64
                  = totalLogical dev - swapSectors).
  { rewrite add64_id by (unfold qint64_range, qint64_min, qint64_max in *; lia). lia. }
  rewrite Hlast, Hnext.
  destruct (isEfiSystem env); [rewrite (Hefi eq_refl) |]; reflexivity.
Qed.

(** X10. In a plan that fits the device (room for the leading space, the ESP,
    the swap and at least one root sector, as in [ranges_ascend_given_room])
    the ranges leave no gap: each starts on the sector after the one before
    it ends, the first starts at the end of the leading reserved space, the
    last ends on the last sector of the device, and their lengths add up to
    the sectors past the leading space. *)
Theorem ranges_tile_device :
  let ranges := sectorRanges (exec (doAutopartition env dev o) emptyCore) in
  contiguous ranges
  /\ fst <$> head ranges = Some (leadingSectors env dev)
  /\ snd <$> last ranges = Some (totalLogical dev - 1)
  /\ foldr Z.add 0 (map rangeLength ranges)
     = totalLogical dev - leadingSectors env dev.
Proof using All.
  cbv zeta. rewrite sectorRanges_fit.
  pose proof (swap_quotient_nonnegative env dev o total_qint64 sector_size_positive
                lead_nonnegative esp_asserted swap_nonnegative room_for_root) as Hq.
  unfold efiSectorCount_asserted in esp_asserted.
  subst lead esp swapSectors.
  destruct (isEfiSystem env), (shouldCreateSwap env dev o);
    cbn; unfold rangeLength; cbn [fst snd]; repeat split;
    try (f_equal; lia); lia.
Qed.

(** X11. In a plan that fits the device, the ESP has exactly
    [efiSectorCount] sectors, and a swap partition has
    [suggestedSwapSizeB / logicalSize + 1] sectors: at least one, more bytes
    than suggested, and at most one sector's worth more. *)
Theorem esp_and_swap_sizes :
  let plan := exec (doAutopartition env dev o) emptyCore in
  let sectors p := rangeLength (firstSector p, lastSector p) in
  Forall (fun p => sectors p = efiSectorCount env dev) (espPartitions plan)
  /\ Forall (fun p =>
       sectors p = suggestedSwapSizeB env dev o ÷ logicalSize dev + 1
       /\ 1 <= sectors p
       /\ suggestedSwapSizeB env dev o < sectors p * logicalSize dev
          <= suggestedSwapSizeB env dev o + logicalSize dev)
     (swapPartitions plan).
Proof using All.
  cbv beta zeta.
  pose proof sectorRanges_fit as Hranges.
  rewrite plan_is_autopartitionCalls in *.
  rewrite sectorRanges_autopartitionCalls in Hranges.
  rewrite swapPartitions_autopartitionCalls.
  destruct (efiPartition_fields env dev o) as (_ & _ & Hesp_first & Hesp_last & _).
  destruct (swapPartitionFor_fields env dev o (Choices.auto_luksPassphrase o))
    as (_ & _ & Hswap_first & Hswap_last & _).
  fold (swapPartition env dev o) in Hswap_first, Hswap_last.
  pose proof (swap_quotient_nonnegative env dev o total_qint64 sector_size_positive
                lead_nonnegative esp_asserted swap_nonnegative room_for_root) as Hq.
  unfold autopartitionCalls, espPartitions, rangeLength. subst lead esp swapSectors.
  split.
  - destruct (isEfiSystem env), (shouldCreateSwap env dev o);
      cbn in Hranges |- *; repeat constructor;
      rewrite Hesp_first, Hesp_last; injection Hranges; intros; lia.
  - destruct (shouldCreateSwap env dev o); [| constructor].
    specialize (Hq eq_refl). specialize (swap_nonnegative eq_refl).
    constructor; [| constructor]. cbn [fst snd].
    rewrite Hswap_first, Hswap_last.
    assert (Hrange : (lastSectorForRoot env dev o + 1)%q64
                     = totalLogical dev
                       - (suggestedSwapSizeB env dev o ÷ logicalSize dev + 1)
                     /\ (totalLogical dev - 1)%q64 = totalLogical dev - 1).
    { destruct (isEfiSystem env); cbn in Hranges; injection Hranges; intros; split; lia. }
    destruct Hrange as [-> ->].
    pose proof (Z.quot_rem' (suggestedSwapSizeB env dev o) (logicalSize dev)) as Hqr.
    pose proof (Z.rem_bound_pos (suggestedSwapSizeB env dev o) (logicalSize dev)
                  swap_nonnegative sector_size_positive) as Hrem.
    repeat split; nia.
Qed.

End AutopartitionSizes.

(** X10 on the first scenario. *)
Lemma ranges_tile_device_witness :
  let ranges :=
    sectorRanges (exec (doAutopartition (helpers := exampleHelpers)
                          efiMachine disk20GiB smallSwapOptions) emptyCore) in
  contiguous ranges
  /\ fst <$> head ranges = Some (leadingSectors (helpers := exampleHelpers) efiMachine disk20GiB)
  /\ snd <$> last ranges = Some (totalLogical disk20GiB - 1)
  /\ foldr Z.add 0 (map rangeLength ranges)
     = totalLogical disk20GiB
       - leadingSectors (helpers := exampleHelpers) efiMachine disk20GiB.
Proof.
  apply (ranges_tile_device (helpers := exampleHelpers)
           efiMachine disk20GiB smallSwapOptions).
  - vm_compute. split; discriminate.
  - reflexivity.
  - vm_compute. discriminate.
  - intros _. vm_compute. reflexivity.
  - intros _. vm_compute. discriminate.
  - vm_compute. discriminate.
Defined.

(** X11 on the first scenario. *)
Lemma esp_and_swap_sizes_witness :
  let plan := exec (doAutopartition (helpers := exampleHelpers)
                      efiMachine disk20GiB smallSwapOptions) emptyCore in
  let sectors p := rangeLength (firstSector p, lastSector p) in
  let suggested :=
    suggestedSwapSizeB (helpers := exampleHelpers) efiMachine disk20GiB smallSwapOptions in
  Forall (fun p => sectors p
                   = efiSectorCount (helpers := exampleHelpers) efiMachine disk20GiB)
         (espPartitions plan)
  /\ Forall (fun p =>
       sectors p = suggested ÷ logicalSize disk20GiB + 1
       /\ 1 <= sectors p
       /\ suggested < sectors p * logicalSize disk20GiB
          <= suggested + logicalSize disk20GiB)
     (swapPartitions plan).
Proof.
  apply (esp_and_swap_sizes (helpers := exampleHelpers)
           efiMachine disk20GiB smallSwapOptions).
  - vm_compute. split; discriminate.
  - reflexivity.
  - vm_compute. discriminate.
  - intros _. vm_compute. reflexivity.
  - intros _. vm_compute. discriminate.
  - vm_compute. discriminate.
Defined.

(** ** The space left for root when swap is created *)

Section RootSpace.
Context {helpers : Helpers}.
Variables (env : Environment) (dev : Device) (o : Choices.AutoPartitionOptions).

Let lead := leadingSectors env dev.
Let esp := if isEfiSystem env then efiSectorCount env dev else 0.

Hypothesis sector_size : 0 < logicalSize dev <= MiB 600.
Hypothesis capacity_qint64 :
  0 <= totalLogical dev /\ totalLogical dev * logicalSize dev <= qint64_max.
Hypothesis lead_nonnegative : 0 <= leadingSectors env dev.
Hypothesis esp_asserted : efiSectorCount_asserted env dev.
Hypothesis cursor_on_device : lead + esp <= totalLogical dev.
Hypothesis required_nonnegative : 0 <= Choices.requiredSpaceB o.
Hypothesis suggestion_nonnegative : 0 <= suggestedSwapSizeB env dev o.
Hypothesis required_qint64 :
  Choices.requiredSpaceB o + MiB 600 + suggestedSwapSizeB env dev o <= qint64_max.
Hypothesis swap_created : shouldCreateSwap env dev o = true.

Local Ltac in_range :=
  unfold qint64_range, qint64_min, qint64_max in *; lia.

Lemma MiB_600 : MiB 600 = 629145600.
Proof using Type. reflexivity. Qed.

Lemma total_bound : totalLogical dev <= qint64_max.
Proof using All.
  destruct capacity_qint64 as [H0 Hcap]. nia.
Qed.

Lemma cursor_exact : firstFreeSector env dev = lead + esp.
Proof using All.
  pose proof total_bound as Ht.
  unfold efiSectorCount_asserted in esp_asserted.
  subst lead esp. unfold firstFreeSector, efiLastSector in *.
  destruct (isEfiSystem env); [specialize (esp_asserted eq_refl) | lia].
  rewrite (add64_id (leadingSectors env dev) (efiSectorCount env dev)) by in_range.
  rewrite sub64_id by in_range. rewrite add64_id by in_range. lia.
Qed.

Lemma cursor_bounds : 0 <= lead + esp.
Proof using All.
  unfold efiSectorCount_asserted in esp_asserted. subst lead esp.
  destruct (isEfiSystem env); [specialize (esp_asserted eq_refl) |]; lia.
Qed.

Lemma space_exceeds_required :
  Choices.requiredSpaceB o + MiB 600 + suggestedSwapSizeB env dev o
  < (totalLogical dev - (lead + esp)) * logicalSize dev.
Proof using All.
  pose proof total_bound as Ht. pose proof cursor_bounds as Hc.
  pose proof MiB_600 as Hfudge.
  assert (Hshould := swap_created). unfold shouldCreateSwap in Hshould.
  apply andb_prop in Hshould as [_ Hgt].
  unfold availableSpaceB, requiredSpaceB in Hgt.
  fold (suggestedSwapSizeB env dev o) in Hgt.
  rewrite cursor_exact in Hgt.
  destruct capacity_qint64 as [H0 Hcap].
  rewrite (sub64_id (totalLogical dev)) in Hgt by in_range.
  assert (Hlow : 0 <= (totalLogical dev - (lead + esp)) * logicalSize dev)
    by (apply Z.mul_nonneg_nonneg; lia).
  assert (Hhigh : (totalLogical dev - (lead + esp)) * logicalSize dev
                  <= totalLogical dev * logicalSize dev)
    by (apply Z.mul_le_mono_nonneg_r; lia).
  rewrite mul64_id in Hgt by in_range.
  rewrite (add64_id (Choices.requiredSpaceB o)) in Hgt by in_range.
  rewrite add64_id in Hgt by in_range.
  apply Z.gtb_lt in Hgt. exact Hgt.
Qed.

(** X12. When a swap partition is created and nothing overflows (a
    non-negative required space and swap suggestion, a device whose capacity
    fits [qint64], a sector size of at most 600 MiB), the root range is not
    empty and holds more than [requiredSpaceB + 600 MiB - logicalSize]
    bytes: cutting the swap off the end leaves the required space to root. *)
Theorem root_keeps_required_space :
  Forall (fun r =>
            fst r <= snd r
            /\ Choices.requiredSpaceB o + MiB 600 - logicalSize dev
               < rangeLength r * logicalSize dev)
         (layoutRanges (exec (doAutopartition env dev o) emptyCore))
  /\ layoutRanges (exec (doAutopartition env dev o) emptyCore) <> [].
Proof using All.
  rewrite plan_is_autopartitionCalls, layoutRanges_autopartitionCalls.
  split; [| discriminate]. constructor; [| constructor]. cbn [fst snd].
  pose proof total_bound as Ht. pose proof cursor_bounds as Hc.
  pose proof space_exceeds_required as Hspace.
  pose proof MiB_600 as Hfudge.
  pose proof (Z.quot_rem' (suggestedSwapSizeB env dev o) (logicalSize dev)) as Hqr.
  pose proof (Z.rem_bound_pos (suggestedSwapSizeB env dev o) (logicalSize dev)
                suggestion_nonnegative ltac:(lia)) as Hrem.
  pose proof (Z.quot_pos (suggestedSwapSizeB env dev o) (logicalSize dev)
                suggestion_nonnegative ltac:(lia)) as Hq.
  set (q := suggestedSwapSizeB env dev o ÷ logicalSize dev) in *.
  set (k := totalLogical dev - (lead + esp)) in *.
  assert (Hk : q + 2 <= k) by nia.
  assert (Hlast : lastSectorForRoot env dev o = totalLogical dev - 1 - (q + 1)).
  { unfold lastSectorForRoot. rewrite swap_created.
    fold q.
    rewrite (sub64_id (totalLogical dev) 1) by in_range.
    rewrite div64_id by (fold q; in_range).
    fold q. rewrite add64_id by in_range.
    rewrite sub64_id by in_range. reflexivity. }
  rewrite cursor_exact, Hlast. unfold rangeLength. cbn [fst snd].
  split; [lia | nia].
Qed.

End RootSpace.

(** X12 on the first scenario. *)
Lemma root_keeps_required_space_witness :
  let ranges :=
    layoutRanges (exec (doAutopartition (helpers := exampleHelpers)
                          efiMachine disk20GiB smallSwapOptions) emptyCore) in
  Forall (fun r =>
            fst r <= snd r
            /\ Choices.requiredSpaceB smallSwapOptions + MiB 600 - logicalSize disk20GiB
               < rangeLength r * logicalSize disk20GiB)
         ranges
  /\ ranges <> [].
Proof.
  apply (root_keeps_required_space (helpers := exampleHelpers)
           efiMachine disk20GiB smallSwapOptions).
  - vm_compute. split; [reflexivity | discriminate].
  - vm_compute. split; discriminate.
  - vm_compute. discriminate.
  - intros _. vm_compute. reflexivity.
  - vm_compute. discriminate.
  - vm_compute. discriminate.
  - vm_compute. discriminate.
  - vm_compute. discriminate.
  - vm_compute. reflexivity.
Defined.

(** ** Where a plan starts *)

(** X13. The first range of every plan starts where the leading reserved
    space ends: at [bytesToSectors] of 2 MiB on EFI and of 1 MiB on BIOS. *)
Theorem first_range_after_reserved_space {helpers : Helpers} (env : Environment)
    (dev : Device) (o : Choices.AutoPartitionOptions) :
  fst <$> head (sectorRanges (exec (doAutopartition env dev o) emptyCore))
  = Some (bytesToSectors (if isEfiSystem env then MiB 2 else MiB 1)
            (logicalSize dev)).
Proof.
  rewrite plan_is_autopartitionCalls, sectorRanges_autopartitionCalls.
  unfold firstFreeSector, leadingSectors.
  destruct (isEfiSystem env); reflexivity.
Qed.

(** ** The passphrase *)

(** X14. The passphrase of the options is handed to the layout step as it
    is and decides nothing about the sectors: plans for different
    passphrases have the same ranges. The ESP is never encrypted; the swap
    partition is encrypted, with that passphrase, exactly when the
    passphrase is not empty. *)
Theorem passphrase_flow {helpers : Helpers} (env : Environment) (dev : Device)
    (o : Choices.AutoPartitionOptions) (passphrase : string) :
  let plan := exec (doAutopartition env dev (withPassphrase o passphrase)) emptyCore in
  layoutPassphrases plan = [passphrase]
  /\ sectorRanges plan = sectorRanges (exec (doAutopartition env dev o) emptyCore)
  /\ Forall (fun p => luksPassphrase p = None) (espPartitions plan)
  /\ Forall (fun p => luksPassphrase p
                      = if isEmpty passphrase then None else Some passphrase)
            (swapPartitions plan).
Proof.
  cbv zeta. rewrite !plan_is_autopartitionCalls.
  rewrite !sectorRanges_autopartitionCalls, swapPartitions_autopartitionCalls.
  change (shouldCreateSwap env dev (withPassphrase o passphrase))
    with (shouldCreateSwap env dev o).
  change (lastSectorForRoot env dev (withPassphrase o passphrase))
    with (lastSectorForRoot env dev o).
  unfold autopartitionCalls.
  change (shouldCreateSwap env dev (withPassphrase o passphrase))
    with (shouldCreateSwap env dev o).
  unfold swapPartition, swapPartitionFor, efiPartition.
  cbn [withPassphrase Choices.auto_luksPassphrase].
  destruct (isEfiSystem env), (shouldCreateSwap env dev o),
    (globalStorage env !! "efiSystemPartitionName"),
    (globalStorage env !! "swapPartitionName"), (isEmpty passphrase);
    cbn; repeat constructor.
Qed.

(** ** The replacement role *)

(** X16. Whatever the descriptor, the replacement role carries neither the
    Extended nor the Unallocated flag: the replacement is never a container
    and never free space. *)
Theorem replacementRoles_is_a_partition (partition : Partition) :
  PartitionRole.has (replacementRoles partition) PartitionRole.Extended = false
  /\ PartitionRole.has (replacementRoles partition) PartitionRole.Unallocated = false.
Proof.
  unfold replacementRoles. cbv zeta.
  destruct (PartitionRole.has (roles partition) PartitionRole.Unallocated) eqn:Hfree;
    destruct (PartitionRole.has (roles partition) PartitionRole.Extended) eqn:Hext;
    destruct (parent partition) as [[| parentRoles] |];
    try destruct (PartitionRole.has parentRoles PartitionRole.Extended);
    split; solve [reflexivity | assumption].
Qed.

(** ** More on swapSuggestion *)

(** X17. With SmallSwap the RAM size stops mattering at 4 GiB: for every RAM
    size from 4 GiB up the suggestion is the smaller of 8 GiB times the
    overestimation factor and a tenth of the available space, the same as
    for exactly 4 GiB. *)
Theorem smallSwap_saturates (env : Environment) (availableSpaceB : Z) :
  GiB 4 <= fst (getTotalMemoryB env) <= qint64_max ->
  swapSuggestion env availableSpaceB Config.SmallSwap
  = Z.min (fudge (GiB 8) (overestimationFactor env))
          (qreal_to_qint64 (one_tenth * qint64_to_qreal availableSpaceB)%float)
  /\ swapSuggestion env availableSpaceB Config.SmallSwap
     = swapSuggestion (withMemory env (GiB 4, snd (getTotalMemoryB env)))
         availableSpaceB Config.SmallSwap.
Proof.
  intros Hram. destruct GiB_values as [E4 E8].
  assert (Htop : forall r, GiB 4 <= r <= qint64_max -> topOut false (rampUp r) = GiB 8).
  { intros r Hr. unfold topOut, rampUp. cbn [negb].
    destruct (Z.leb_spec r (GiB 4)).
    - assert (r = GiB 4) as -> by lia. rewrite E4. reflexivity.
    - destruct (Z.leb_spec r (GiB 8)); lia. }
  assert (Hsteps : forall env',
            GiB 4 <= fst (getTotalMemoryB env') <= qint64_max ->
            swapSuggestion env' availableSpaceB Config.SmallSwap
            = Z.min (fudge (GiB 8) (overestimationFactor env'))
                (qreal_to_qint64 (one_tenth * qint64_to_qreal availableSpaceB)%float)).
  { intros env' Hr. rewrite swapSuggestion_steps by (left; reflexivity).
    rewrite availableRamB_id by lia.
    unfold ensureSuspendToDisk. cbn [Config.SwapChoice_eqb].
    rewrite (Htop _ Hr). reflexivity. }
  split; [apply Hsteps; assumption |].
  rewrite !Hsteps; [reflexivity | | assumption].
  cbn [withMemory getTotalMemoryB fst]. unfold qint64_max. lia.
Qed.

(** X17 at 16 GiB of RAM. *)
Lemma smallSwap_saturates_witness :
  let env := memoryOnly (GiB 16) one in
  swapSuggestion env (GiB 100) Config.SmallSwap
  = Z.min (fudge (GiB 8) (overestimationFactor env))
          (qreal_to_qint64 (one_tenth * qint64_to_qreal (GiB 100))%float)
  /\ swapSuggestion env (GiB 100) Config.SmallSwap
     = swapSuggestion (withMemory env (GiB 4, snd (getTotalMemoryB env)))
         (GiB 100) Config.SmallSwap.
Proof.
  apply (smallSwap_saturates (memoryOnly (GiB 16) one) (GiB 100)).
  vm_compute. split; discriminate.
Defined.

(** A [qreal] that is neither NaN nor infinite is a zero or a finite number. *)
Lemma Prim2SF_finite (f : float) :
  PrimFloat.is_nan f = false -> PrimFloat.is_infinity f = false ->
  (exists s, Prim2SF f = S754_zero s) \/ (exists s m e, Prim2SF f = S754_finite s m e).
Proof.
  intros Hnan Hinf. unfold Prim2SF. rewrite Hnan, Hinf.
  destruct (PrimFloat.is_zero f); [left; eauto |].
  destruct (Z.frexp f) as [r ex].
  destruct (shr_fexp _ _ _ _ _) as [shr e'].
  destruct (shr_m shr); [left | right | left]; eauto.
Qed.

(** Zero bytes times any finite factor are zero bytes. *)
Lemma fudge_zero (f : float) :
  PrimFloat.is_nan f = false -> PrimFloat.is_infinity f = false -> fudge 0 f = 0.
Proof.
  intros Hnan Hinf. unfold fudge, qreal_to_qint64.
  rewrite FloatAxioms.mul_spec.
  change (Prim2SF (qint64_to_qreal 0)) with (S754_zero false).
  destruct (Prim2SF_finite f Hnan Hinf) as [[s ->] | (s & m & e & ->)]; reflexivity.
Qed.

(** X18. When the machine reports no RAM at all and the overestimation
    factor is a finite number, FullSwap suggests 0 bytes and SmallSwap
    suggests at most 0 bytes. *)
Theorem no_ram_no_swap_size (env : Environment) (availableSpaceB : Z) :
  fst (getTotalMemoryB env) = 0 ->
  PrimFloat.is_nan (overestimationFactor env) = false ->
  PrimFloat.is_infinity (overestimationFactor env) = false ->
  swapSuggestion env availableSpaceB Config.FullSwap = 0
  /\ swapSuggestion env availableSpaceB Config.SmallSwap <= 0.
Proof.
  intros Hram Hnan Hinf.
  assert (Hbase : rampUp (availableRamB env) = 0).
  { unfold availableRamB. rewrite Hram. reflexivity. }
  split.
  - rewrite swapSuggestion_steps by (right; reflexivity). rewrite Hbase.
    unfold ensureSuspendToDisk, tenPercent, topOut. cbn [Config.SwapChoice_eqb negb].
    apply fudge_zero; assumption.
  - rewrite swapSuggestion_steps by (left; reflexivity). rewrite Hbase.
    unfold ensureSuspendToDisk, tenPercent, topOut. cbn [Config.SwapChoice_eqb negb].
    change (Z.min (GiB 8) 0) with 0.
    rewrite (fudge_zero _ Hnan Hinf). lia.
Qed.

(** X18 with a factor of zero. *)
Lemma no_ram_no_swap_size_witness :
  swapSuggestion (memoryOnly 0 zero) (GiB 20) Config.FullSwap = 0
  /\ swapSuggestion (memoryOnly 0 zero) (GiB 20) Config.SmallSwap <= 0.
Proof.
  apply (no_ram_no_swap_size (memoryOnly 0 zero) (GiB 20)); reflexivity.
Defined.

(** ** The size of the ESP *)

Lemma wrap32_range (z : Z) : - 2 ^ 31 <= wrap32 z < 2 ^ 31.
Proof.
  unfold wrap32.
  pose proof (Z.mod_pos_bound (z + 2 ^ 31) (2 ^ 32) ltac:(lia)). lia.
Qed.

Lemma wrap32_id (z : Z) : - 2 ^ 31 <= z < 2 ^ 31 -> wrap32 z = z.
Proof.
  intros Hz. unfold wrap32. rewrite Z.mod_small by lia. lia.
Qed.

Lemma wrap32_congruent (z : Z) : (wrap32 z - z) mod 2 ^ 32 = 0.
Proof.
  unfold wrap32. rewrite (Z.mod_eq (z + 2 ^ 31) (2 ^ 32)) by lia.
  replace (z + 2 ^ 31 - 2 ^ 32 * ((z + 2 ^ 31) / 2 ^ 32) - 2 ^ 31 - z)
    with (- ((z + 2 ^ 31) / 2 ^ 32) * 2 ^ 32) by lia.
  apply Z.mod_mul. lia.
Qed.

(** X19. The ESP size in bytes is held in an [int]. Without the key
    efiSystemPartitionSize it is 300 MiB. With the key it is the configured
    size when that fits an [int], and otherwise what is left of it modulo
    4 GiB, between -2 GiB and 2 GiB: a configured size of 2 GiB or more is
    never the size used. *)
Theorem esp_size_is_an_int {helpers : Helpers} (env : Environment) (dev : Device) :
  - 2 ^ 31 <= uefisys_part_sizeB env dev < 2 ^ 31
  /\ (globalStorage env !! "efiSystemPartitionSize" = None ->
      uefisys_part_sizeB env dev = MiB 300)
  /\ (forall text : string,
        globalStorage env !! "efiSystemPartitionSize" = Some text ->
        let configured := toBytes text (capacity dev) in
        (uefisys_part_sizeB env dev - configured) mod 2 ^ 32 = 0
        /\ (- 2 ^ 31 <= configured < 2 ^ 31 -> uefisys_part_sizeB env dev = configured)
        /\ (2 ^ 31 <= configured -> uefisys_part_sizeB env dev <> configured)).
Proof.
  unfold uefisys_part_sizeB. split; [| split].
  - destruct (globalStorage env !! "efiSystemPartitionSize"); apply wrap32_range.
  - intros ->. reflexivity.
  - intros text ->. cbv zeta. split; [apply wrap32_congruent |]. split.
    + apply wrap32_id.
    + intros Hbig Heq.
      pose proof (wrap32_range (toBytes text (capacity dev))). lia.
Qed.

(** ** Required space and swap *)

(** X20. Asking for more required space can cost the swap partition and
    never brings one: if the plan for a larger required space includes swap,
    so does the plan for the smaller one (the sums of required space, fudge
    and suggestion staying within [qint64]). *)
Theorem more_required_space_never_adds_swap {helpers : Helpers}
    (env : Environment) (dev : Device) (o : Choices.AutoPartitionOptions)
    (more : Z) :
  Choices.requiredSpaceB o <= more ->
  qint64_range (Choices.requiredSpaceB o + MiB 600) ->
  qint64_range (Choices.requiredSpaceB o + MiB 600 + suggestedSwapSizeB env dev o) ->
  qint64_range (more + MiB 600) ->
  qint64_range (more + MiB 600 + suggestedSwapSizeB env dev o) ->
  includesSwap (exec (doAutopartition env dev (withRequiredSpace o more)) emptyCore) = true ->
  includesSwap (exec (doAutopartition env dev o) emptyCore) = true.
Proof.
  intros Hmore Hr1 Hr2 Hm1 Hm2.
  rewrite !plan_is_autopartitionCalls, !includesSwap_autopartitionCalls.
  unfold shouldCreateSwap, requiredSpaceB.
  change (mayCreateSwap (withRequiredSpace o more)) with (mayCreateSwap o).
  change (suggestedSwapSizeB env dev (withRequiredSpace o more))
    with (suggestedSwapSizeB env dev o).
  cbn [withRequiredSpace Choices.requiredSpaceB].
  rewrite (add64_id more), (add64_id (Choices.requiredSpaceB o)) by assumption.
  rewrite !add64_id by assumption.
  intros Hswap. apply andb_prop in Hswap as [Hmay Hgt].
  rewrite Hmay. cbn [andb]. apply Z.gtb_lt in Hgt. apply Z.gtb_lt. lia.
Qed.

(** X20 on the first scenario: 8 GiB required instead of 4 GiB. *)
Lemma more_required_space_never_adds_swap_witness :
  includesSwap (exec (doAutopartition (helpers := exampleHelpers) efiMachine disk20GiB
                        (withRequiredSpace smallSwapOptions (GiB 4))) emptyCore) = true.
Proof.
  apply (more_required_space_never_adds_swap (helpers := exampleHelpers)
           efiMachine disk20GiB (withRequiredSpace smallSwapOptions (GiB 4)) (GiB 8)).
  - vm_compute. discriminate.
  - vm_compute. split; discriminate.
  - vm_compute. split; discriminate.
  - vm_compute. split; discriminate.
  - vm_compute. split; discriminate.
  - vm_compute. reflexivity.
Defined.

(** ** The ranges of a plan on a device that holds the cursor *)

Section AutopartitionRoom.
Context {helpers : Helpers}.
Variables (env : Environment) (dev : Device) (o : Choices.AutoPartitionOptions).

Let lead := leadingSectors env dev.
Let esp := if isEfiSystem env then efiSectorCount env dev else 0.

Hypothesis sector_size : 0 < logicalSize dev <= MiB 600.
Hypothesis capacity_qint64 :
  0 <= totalLogical dev /\ totalLogical dev * logicalSize dev <= qint64_max.
Hypothesis lead_nonnegative : 0 <= leadingSectors env dev.
Hypothesis esp_asserted : efiSectorCount_asserted env dev.
Hypothesis cursor_on_device : lead + esp <= totalLogical dev - 1.
Hypothesis required_nonnegative : 0 <= Choices.requiredSpaceB o.
Hypothesis suggestion_nonnegative :
  shouldCreateSwap env dev o = true -> 0 <= suggestedSwapSizeB env dev o.
Hypothesis required_qint64 :
  shouldCreateSwap env dev o = true ->
  Choices.requiredSpaceB o + MiB 600 + suggestedSwapSizeB env dev o <= qint64_max.

(** The space check of the source leaves room for the swap and one root
    sector: the room is a consequence of the plan, not an assumption. *)
Lemma swap_leaves_room_for_root :
  lead + esp
  + (if shouldCreateSwap env dev o
     then suggestedSwapSizeB env dev o ÷ logicalSize dev + 1 else 0)
  <= totalLogical dev - 1.
Proof using All.
  destruct (shouldCreateSwap env dev o) eqn:Hswap; [| lia].
  specialize (suggestion_nonnegative eq_refl).
  specialize (required_qint64 eq_refl).
  pose proof (space_exceeds_required env dev o sector_size capacity_qint64
                lead_nonnegative esp_asserted ltac:(subst lead esp; lia)
                required_nonnegative suggestion_nonnegative required_qint64 Hswap)
    as Hspace.
  fold lead esp in Hspace.
  assert (Hfudge : MiB 600 = 629145600) by reflexivity.
  pose proof (Z.quot_rem' (suggestedSwapSizeB env dev o) (logicalSize dev)) as Hqr.
  pose proof (Z.rem_bound_pos (suggestedSwapSizeB env dev o) (logicalSize dev)
                suggestion_nonnegative ltac:(lia)) as Hrem.
  pose proof (Z.quot_pos (suggestedSwapSizeB env dev o) (logicalSize dev)
                suggestion_nonnegative ltac:(lia)) as Hq.
  set (q := suggestedSwapSizeB env dev o ÷ logicalSize dev) in *.
  set (k := totalLogical dev - (lead + esp)) in *.
  assert (Hk : q + 2 <= k) by nia.
  lia.
Qed.

(** C2, amended. Take a device with a positive sector size of at most
    600 MiB and a capacity within [qint64], a non-negative count of leading
    reserved sectors, an ESP sector count that meets the source's assertion,
    a cursor (leading space and ESP) that leaves at least one sector of the
    device, a non-negative required space and, when swap is created, a
    non-negative swap suggestion whose sum with the required space and
    600 MiB stays within [qint64]. Then the ranges of the plan, in emission
    order (ESP on EFI, root, swap when created), each lie within
    [0, totalLogical - 1], are pairwise disjoint, and strictly increase in
    their first sector. That the swap leaves room for root is the work of
    the planner's space check. *)
Theorem ranges_fit_and_ascend :
  let ranges := sectorRanges (exec (doAutopartition env dev o) emptyCore) in
  Forall (within (totalLogical dev)) ranges
  /\ ForallOrdPairs disjoint ranges
  /\ ForallOrdPairs (fun r1 r2 => fst r1 < fst r2) ranges.
Proof using All.
  apply ranges_ascend_given_room.
  - destruct capacity_qint64 as [H0 Hcap]. split; [assumption | nia].
  - lia.
  - assumption.
  - assumption.
  - assumption.
  - exact swap_leaves_room_for_root.
Qed.

End AutopartitionRoom.

(** C2, amended, on the first scenario of the specification: ESP, root and
    swap on a 20 GiB disk. *)
Lemma ranges_fit_and_ascend_witness :
  let ranges :=
    sectorRanges (exec (doAutopartition (helpers := exampleHelpers)
                          efiMachine disk20GiB smallSwapOptions) emptyCore) in
  Forall (within (totalLogical disk20GiB)) ranges
  /\ ForallOrdPairs disjoint ranges
  /\ ForallOrdPairs (fun r1 r2 => fst r1 < fst r2) ranges.
Proof.
  apply (ranges_fit_and_ascend (helpers := exampleHelpers)
           efiMachine disk20GiB smallSwapOptions).
  - vm_compute. split; [reflexivity | discriminate].
  - vm_compute. split; discriminate.
  - vm_compute. discriminate.
  - intros _. vm_compute. reflexivity.
  - vm_compute. discriminate.
  - vm_compute. discriminate.
  - intros _. vm_compute. discriminate.
  - intros _. vm_compute. discriminate.
Defined.
